(** * Workspace sidebar controller (src/components/sidebar.tsx)

    A shallow embedding of the state/data controller of the sidebar
    component: title derivation, the three list fetches, upload, delete
    and the expansion toggle.  React state setters, toasts, console
    output and HTTP requests are recorded as a trace of effects; the
    component state is obtained by replaying the trace. *)

From Stdlib Require Import Ascii String QArith.
From stdpp Require Import base option list strings gmap pretty.

Local Open Scope string_scope.
Local Open Scope list_scope.

(** ** Strings and the title helper

    Strings are sequences of 8-bit characters.  The helper looks at the
    ASCII characters [.], [_], [-] and the letters p, d, f only, and
    copies every other character. *)

Module Title.

(** Regular-expression case folding for [/i] without the [u] flag:
    a character is compared through its upper-case form, and only the
    ASCII letters have an ASCII upper-case form. *)
Definition canonicalize (a : ascii) : ascii :=
  let n := nat_of_ascii a in
  if (97 <=? n)%nat && (n <=? 122)%nat then ascii_of_nat (n - 32) else a.

Definition ci_eqb (a b : ascii) : bool :=
  Ascii.eqb (canonicalize a) (canonicalize b).

(** One attempt of [/\.pdf$/i] at the start of [s]: a literal dot, the
    letters p, d, f in either case, then the end of input. *)
Definition match_dot_pdf_end (s : string) : bool :=
  match s with
  | String c0 (String c1 (String c2 (String c3 EmptyString))) =>
      Ascii.eqb c0 "." && ci_eqb c1 "p" && ci_eqb c2 "d" && ci_eqb c3 "f"
  | _ => false
  end.

(** [s.replace(/\.pdf$/i, "")]: the start positions are tried from left
    to right; the first match is replaced by the empty string; without a
    match the string is returned as it is. *)
Fixpoint replace_dot_pdf_end (s : string) : string :=
  if match_dot_pdf_end s then EmptyString
  else match s with
       | EmptyString => EmptyString
       | String c r => String c (replace_dot_pdf_end r)
       end.

(** [s.replace(/c/g, to)] for a one-character pattern [c]. *)
Fixpoint replace_all (c to : ascii) (s : string) : string :=
  match s with
  | EmptyString => EmptyString
  | String a r =>
      String (if Ascii.eqb a c then to else a) (replace_all c to r)
  end.

(** The fields of [PdfCollection] (declared in "@/services").  The guard
    [collection.file_names && ...] of the title helper allows for a
    missing [file_names], hence the option. *)
Record PdfCollection := {
  collection_id : string;
  file_names : option (list string);
  document_count : N;
  created_at : string
}.

Definition getCollectionTitle (collection : PdfCollection) : string :=
  match file_names collection with
  | Some (firstName :: _) =>
      replace_all "-" " " (replace_all "_" " " (replace_dot_pdf_end firstName))
  | Some [] | None => "Untitled Collection"
  end.

(** *** The title as the specification words it *)

Definition is_dot_pdf (e : string) : bool :=
  match e with
  | String c0 (String c1 (String c2 (String c3 EmptyString))) =>
      Ascii.eqb c0 "."
      && (Ascii.eqb c1 "p" || Ascii.eqb c1 "P")
      && (Ascii.eqb c2 "d" || Ascii.eqb c2 "D")
      && (Ascii.eqb c3 "f" || Ascii.eqb c3 "F")
  | _ => false
  end.

(** Strip a trailing [.pdf] in any letter case. *)
Definition strip_pdf_suffix (s : string) : string :=
  let n := String.length s in
  if (4 <=? n)%nat && is_dot_pdf (substring (n - 4) 4 s)
  then substring 0 (n - 4) s
  else s.

Fixpoint map_chars (f : ascii -> ascii) (s : string) : string :=
  match s with
  | EmptyString => EmptyString
  | String a r => String (f a) (map_chars f r)
  end.

(** Underscores and hyphens become spaces, everything else is kept. *)
Definition separator_to_space (a : ascii) : ascii :=
  if Ascii.eqb a "_" || Ascii.eqb a "-" then " "%char else a.

Definition title_spec (collection : PdfCollection) : string :=
  match file_names collection with
  | Some (first :: _) => map_chars separator_to_space (strip_pdf_suffix first)
  | _ => "Untitled Collection"
  end.

End Title.

(** ** JavaScript values as the handlers see them *)

Module Js.

(** Values that reach the handlers: parsed JSON bodies, plus
    [undefined] for absent properties. *)
#[local] Unset Elimination Schemes.
Inductive JsVal : Type :=
| JUndefined
| JNull
| JBool (b : bool)
| JNum (q : Q)
| JStr (s : string)
| JArr (items : list JsVal)
| JObj (fields : list (string * JsVal)).
#[local] Set Elimination Schemes.

(** Normal completion or a thrown exception. *)
Inductive Completion (A : Type) : Type :=
| Normal (a : A)
| Throw (e : JsVal).
Arguments Normal {A} a.
Arguments Throw {A} e.

#[export] Instance completion_ret : MRet Completion := fun A a => Normal a.
#[export] Instance completion_bind : MBind Completion := fun A B f m =>
  match m with
  | Normal a => f a
  | Throw e => Throw e
  end.

(** The [TypeError] raised by a property read on [null]/[undefined] or
    by calling something that is not a function. *)
Definition TypeError : JsVal := JObj [("name", JStr "TypeError")].

(** ToBoolean. *)
Definition truthy (v : JsVal) : bool :=
  match v with
  | JUndefined | JNull => false
  | JBool b => b
  | JNum q => negb (Qeq_bool q 0)
  | JStr s => negb (String.eqb s "")
  | JArr _ | JObj _ => true
  end.

(** [Array.isArray(v)], giving the elements. *)
Definition as_array (v : JsVal) : option (list JsVal) :=
  match v with
  | JArr items => Some items
  | _ => None
  end.

Fixpoint obj_get (k : string) (fields : list (string * JsVal)) : JsVal :=
  match fields with
  | [] => JUndefined
  | (k', v) :: rest => if String.eqb k k' then v else obj_get k rest
  end.

(** Property definition in an object literal: an existing key keeps its
    place and takes the new value, a new key goes last. *)
Fixpoint obj_set (k : string) (v : JsVal) (fields : list (string * JsVal))
  : list (string * JsVal) :=
  match fields with
  | [] => [(k, v)]
  | (k', v') :: rest =>
      if String.eqb k k' then (k, v) :: rest else (k', v') :: obj_set k v rest
  end.

(** [v.k] for the property names this component reads ("collections",
    "tables", "length", "name", "columns", "sample_data"); none of them
    is an array index or a prototype member of a JSON value, except
    "length" on arrays and strings. *)
Definition get (v : JsVal) (k : string) : Completion JsVal :=
  match v with
  | JUndefined | JNull => Throw TypeError
  | JObj fields => Normal (obj_get k fields)
  | JArr items =>
      Normal (if String.eqb k "length"
              then JNum (inject_Z (Z.of_nat (length items)))
              else JUndefined)
  | JStr s =>
      Normal (if String.eqb k "length"
              then JNum (inject_Z (Z.of_nat (String.length s)))
              else JUndefined)
  | JBool _ | JNum _ => Normal JUndefined
  end.

(** [a || b]. *)
Definition or_else (a b : JsVal) : JsVal := if truthy a then a else b.

Fixpoint indexed_from (i : nat) (vs : list JsVal) : list (string * JsVal) :=
  match vs with
  | [] => []
  | v :: rest => (pretty i, v) :: indexed_from (S i) rest
  end.

Fixpoint chars_of (s : string) : list JsVal :=
  match s with
  | EmptyString => []
  | String a r => JStr (String a EmptyString) :: chars_of r
  end.

(** Own enumerable properties copied by a spread [{...v}]. *)
Definition spread (v : JsVal) : list (string * JsVal) :=
  match v with
  | JObj fields => fields
  | JArr items => indexed_from 0 items
  | JStr s => indexed_from 0 (chars_of s)
  | JUndefined | JNull | JBool _ | JNum _ => []
  end.

(** [v > 0].  Numbers, booleans, [null] and [undefined] are converted as
    ToNumber says; for strings, arrays and objects the conversion goes
    through ToPrimitive and the numeric-literal grammar and is left to
    [coerced_gt0]. *)
Definition gt0 (coerced_gt0 : JsVal -> bool) (v : JsVal) : bool :=
  match v with
  | JNum q => negb (Qle_bool q 0)
  | JBool b => b
  | JUndefined | JNull => false
  | JStr _ | JArr _ | JObj _ => coerced_gt0 v
  end.

(** The largest integer below which every integer is a Number of its own. *)
Definition max_safe_integer : Z := 9007199254740991.

(** The text of a Number that holds the integer [n], as a template literal
    produces it.  Inside the safe range it is the decimal numeral, with
    a minus sign for a negative value.  Outside it the text is built from
    the shortest digits of the nearest double and turns to exponent
    notation from 1e21 on: that part is left to [other_text]. *)
Definition number_text (other_text : Z -> string) (n : Z) : string :=
  if (Z.abs n <=? max_safe_integer)%Z then pretty n else other_text n.

End Js.

(** ** The panel: state, effects and handlers *)

Module Panel.
Import Title Js.

(** *** Collaborators *)

(** A browser [File] picked in the file input. *)
Record File := { file_name : string; file_size : N }.

Inductive FormValue : Type :=
| FormFile (f : File)
| FormText (s : string).

(** [FormData]: the appended entries in order. *)
Definition FormData : Type := list (string * FormValue).

(** The requests the panel sends: the calls on the service objects of
    "@/services" and the two direct [fetch] calls. *)
Inductive Request : Type :=
| PdfCollectionsGet
| PdfUploadStore (body : FormData)
| PdfCollectionDelete (collectionId : string)
| ChatCollectionsGet
| ChatUploadStore (body : FormData)
| ChatCollectionDelete (collectionId : string)
| FetchDatabaseTables (apiUrl : string)
| FetchDatabaseTable (apiUrl : string) (name : JsVal).

(** How a promise settles. *)
Inductive Settled (A : Type) : Type :=
| Fulfilled (a : A)
| Rejected (e : JsVal).
Arguments Fulfilled {A} a.
Arguments Rejected {A} e.

(** How [fetch(url)] followed by [res.json()] ends. *)
Inductive JsonFetch : Type :=
| NetworkError (e : JsVal)
| BodyNotJson (e : JsVal)
| Body (data : JsVal).

(** [fetch(url).then((res) => res.json())]. *)
Definition json_of (r : JsonFetch) : Settled JsVal :=
  match r with
  | NetworkError e => Rejected e
  | BodyNotJson e => Rejected e
  | Body data => Fulfilled data
  end.

(** The upload responses (declared in "@/services"); the counts are
    integers. *)
Record UploadResponse := { file_count : Z }.
Record ChatUploadResponse := { message_count : Z }.

Record ToastMsg := {
  title : string;
  description : string;
  variant : option string
}.

(** *** Component state (the [useState] cells) *)

Record State := {
  activeTab : string;
  pdfCollections : list PdfCollection;
  chatCollections : list JsVal;
  dbTables : list JsVal;
  uploading : bool;
  loadingPdf : bool;
  loadingChat : bool;
  loadingDb : bool;
  expandedTables : gset string
}.

Definition initial : State := {|
  activeTab := "pdf";
  pdfCollections := [];
  chatCollections := [];
  dbTables := [];
  uploading := false;
  loadingPdf := false;
  loadingChat := false;
  loadingDb := false;
  expandedTables := ∅
|}.

(** *** Effects *)

Inductive Effect : Type :=
| SetActiveTab (tab : string)
| SetPdfCollections (items : list PdfCollection)
| SetChatCollections (items : list JsVal)
| SetDbTables (items : list JsVal)
| SetUploading (b : bool)
| SetLoadingPdf (b : bool)
| SetLoadingChat (b : bool)
| SetLoadingDb (b : bool)
| SetExpandedTables (updater : gset string -> gset string)
| Toast (t : ToastMsg)
| ConsoleLog (msg : string)
| ConsoleError (msg : string) (error : JsVal)
| Issue (r : Request).

Definition apply (s : State) (e : Effect) : State :=
  match e with
  | SetActiveTab tab =>
      {| activeTab := tab; pdfCollections := pdfCollections s;
         chatCollections := chatCollections s; dbTables := dbTables s;
         uploading := uploading s; loadingPdf := loadingPdf s;
         loadingChat := loadingChat s; loadingDb := loadingDb s;
         expandedTables := expandedTables s |}
  | SetPdfCollections items =>
      {| activeTab := activeTab s; pdfCollections := items;
         chatCollections := chatCollections s; dbTables := dbTables s;
         uploading := uploading s; loadingPdf := loadingPdf s;
         loadingChat := loadingChat s; loadingDb := loadingDb s;
         expandedTables := expandedTables s |}
  | SetChatCollections items =>
      {| activeTab := activeTab s; pdfCollections := pdfCollections s;
         chatCollections := items; dbTables := dbTables s;
         uploading := uploading s; loadingPdf := loadingPdf s;
         loadingChat := loadingChat s; loadingDb := loadingDb s;
         expandedTables := expandedTables s |}
  | SetDbTables items =>
      {| activeTab := activeTab s; pdfCollections := pdfCollections s;
         chatCollections := chatCollections s; dbTables := items;
         uploading := uploading s; loadingPdf := loadingPdf s;
         loadingChat := loadingChat s; loadingDb := loadingDb s;
         expandedTables := expandedTables s |}
  | SetUploading b =>
      {| activeTab := activeTab s; pdfCollections := pdfCollections s;
         chatCollections := chatCollections s; dbTables := dbTables s;
         uploading := b; loadingPdf := loadingPdf s;
         loadingChat := loadingChat s; loadingDb := loadingDb s;
         expandedTables := expandedTables s |}
  | SetLoadingPdf b =>
      {| activeTab := activeTab s; pdfCollections := pdfCollections s;
         chatCollections := chatCollections s; dbTables := dbTables s;
         uploading := uploading s; loadingPdf := b;
         loadingChat := loadingChat s; loadingDb := loadingDb s;
         expandedTables := expandedTables s |}
  | SetLoadingChat b =>
      {| activeTab := activeTab s; pdfCollections := pdfCollections s;
         chatCollections := chatCollections s; dbTables := dbTables s;
         uploading := uploading s; loadingPdf := loadingPdf s;
         loadingChat := b; loadingDb := loadingDb s;
         expandedTables := expandedTables s |}
  | SetLoadingDb b =>
      {| activeTab := activeTab s; pdfCollections := pdfCollections s;
         chatCollections := chatCollections s; dbTables := dbTables s;
         uploading := uploading s; loadingPdf := loadingPdf s;
         loadingChat := loadingChat s; loadingDb := b;
         expandedTables := expandedTables s |}
  | SetExpandedTables updater =>
      {| activeTab := activeTab s; pdfCollections := pdfCollections s;
         chatCollections := chatCollections s; dbTables := dbTables s;
         uploading := uploading s; loadingPdf := loadingPdf s;
         loadingChat := loadingChat s; loadingDb := loadingDb s;
         expandedTables := updater (expandedTables s) |}
  | Toast _ | ConsoleLog _ | ConsoleError _ _ | Issue _ => s
  end.

(** The state after the effects of a trace, oldest first. *)
Definition replay (s : State) (trace : list Effect) : State :=
  fold_left apply trace s.

(** *** Handler code: a trace of effects and a completion *)

Definition Action (A : Type) : Type := (list Effect * Completion A)%type.

#[export] Instance action_ret : MRet Action := fun A a => ([], Normal a).
#[export] Instance action_bind : MBind Action := fun A B f m =>
  match m with
  | (t, Normal a) => let '(t', r) := f a in (t ++ t', r)
  | (t, Throw e) => (t, Throw e)
  end.

Definition emit (e : Effect) : Action unit := ([e], Normal tt).
Definition lift {A} (c : Completion A) : Action A := ([], c).
Definition throw {A} (e : JsVal) : Action A := ([], Throw e).

(** [try { body } catch (error) { handler }]. *)
Definition try_catch {A} (body : Action A) (handler : JsVal -> Action A)
  : Action A :=
  match body with
  | (t, Normal a) => (t, Normal a)
  | (t, Throw e) => let '(t', r) := handler e in (t ++ t', r)
  end.

(** [p.then(onOk).catch(onErr).finally(onEnd)] once [p] has settled. *)
Definition promise_chain {A} (p : Settled A)
    (onOk : A -> Action unit) (onErr : JsVal -> Action unit)
    (onEnd : Action unit) : Action unit :=
  let body := match p with
              | Fulfilled a => onOk a
              | Rejected e => throw e
              end in
  match try_catch body onErr with
  | (t, Normal _) => let '(t', r) := onEnd in (t ++ t', r)
  | (t, Throw e) =>
      let '(t', r) := onEnd in
      (t ++ t', match r with Normal _ => Throw e | Throw e' => Throw e' end)
  end.

Definition trace_of {A} (m : Action A) : list Effect := m.1.

Fixpoint for_each {A} (f : A -> Action unit) (l : list A) : Action unit :=
  match l with
  | [] => mret tt
  | x :: rest => f x;; for_each f rest
  end.

(** *** The three list fetches *)

(** Each fetch is split where the code suspends: the part that runs when
    the handler is called, and the part that runs when the request has
    settled. *)

Definition fetchCollections_start : Action unit :=
  emit (SetLoadingPdf true);;
  emit (Issue PdfCollectionsGet).

Definition fetchCollections_settle (resp : Settled (list PdfCollection))
  : Action unit :=
  promise_chain resp
    (fun data =>
       emit (ConsoleLog "Fetched PDF collections:");;
       emit (SetPdfCollections data))
    (fun error =>
       emit (ConsoleError "Failed to fetch collections:" error);;
       emit (Toast {| title := "Error";
                      description := "Failed to fetch PDF collections";
                      variant := Some "destructive" |}))
    (emit (SetLoadingPdf false)).

Definition fetchCollections (resp : Settled (list PdfCollection))
  : Action unit :=
  fetchCollections_start;; fetchCollections_settle resp.

Definition fetchChatCollections_start : Action unit :=
  emit (SetLoadingChat true);;
  emit (Issue ChatCollectionsGet).

Definition fetchChatCollections_settle (resp : Settled JsVal) : Action unit :=
  promise_chain resp
    (fun data =>
       match as_array data with
       | Some items => emit (SetChatCollections items)
       | None =>
           if truthy data then
             collections ← lift (get data "collections");
             match as_array collections with
             | Some items => emit (SetChatCollections items)
             | None => emit (SetChatCollections [])
             end
           else emit (SetChatCollections [])
       end)
    (fun error =>
       emit (ConsoleError "Failed to fetch chat collections:" error);;
       emit (SetChatCollections []);;
       emit (Toast {| title := "Error";
                      description := "Failed to fetch chat collections";
                      variant := Some "destructive" |}))
    (emit (SetLoadingChat false)).

Definition fetchChatCollections (resp : Settled JsVal) : Action unit :=
  fetchChatCollections_start;; fetchChatCollections_settle resp.

(** What the panel is configured with: the base URL, and the part of
    [>] that {!Js.gt0} leaves open. *)
Record Env := {
  apiUrl : string;
  coerced_gt0 : JsVal -> bool
}.

(** The synchronous start of the per-table callback: the URL is built
    from [table.name] and the detail request is sent; a throw is caught
    by the callback's own [try]. *)
Definition request_detail (env : Env) (table : JsVal) : Action unit :=
  try_catch
    (name ← lift (get table "name");
     emit (Issue (FetchDatabaseTable (apiUrl env) name)))
    (fun _ => mret tt).

(** The value the per-table callback resolves with, given how its detail
    request ended. *)
Definition detail_record (table : JsVal) (detail : JsonFetch) : JsVal :=
  match get table "name" with
  | Throw _ => table
  | Normal _ =>
      match detail with
      | NetworkError _ | BodyNotJson _ => table
      | Body detailData =>
          match
            columns ← get detailData "columns";
            sample_data ← get detailData "sample_data";
            mret (JObj (obj_set "sample_data" (or_else sample_data (JArr []))
                         (obj_set "columns" (or_else columns (JArr []))
                            (spread table))))
          with
          | Normal merged => merged
          | Throw _ => table
          end
      end
  end.

(** The [async (data) => ...] handler of the table list; [details i] is
    how the detail request of the table at position [i] ends. *)
Definition on_tables (env : Env) (details : nat -> JsonFetch) (data : JsVal)
  : Action unit :=
  tables ← lift (get data "tables");
  nonempty ← (if truthy tables
              then len ← lift (get tables "length");
                   mret (gt0 (coerced_gt0 env) len)
              else mret false);
  if nonempty : bool then
    match as_array tables with
    | Some items =>
        for_each (request_detail env) items;;
        emit (SetDbTables
                (imap (fun i table => detail_record table (details i)) items))
    | None => throw TypeError
    end
  else emit (SetDbTables []).

Definition fetchDbTables_start (env : Env) : Action unit :=
  emit (SetLoadingDb true);;
  emit (Issue (FetchDatabaseTables (apiUrl env))).

Definition fetchDbTables_settle (env : Env) (list_resp : JsonFetch)
    (details : nat -> JsonFetch) : Action unit :=
  promise_chain (json_of list_resp)
    (on_tables env details)
    (fun error => emit (ConsoleError "Failed to fetch database tables:" error))
    (emit (SetLoadingDb false)).

Definition fetchDbTables (env : Env) (list_resp : JsonFetch)
    (details : nat -> JsonFetch) : Action unit :=
  fetchDbTables_start env;; fetchDbTables_settle env list_resp details.

(** *** Upload and delete *)

(** [Array.from(files).forEach((file) => formData.append("files", file))]. *)
Definition pdf_form (files : list File) : FormData :=
  map (fun file => ("files", FormFile file)) files.

(** [files] is [FileList | null].  The reload started by the success
    handler settles in a later task, after the chain of the upload
    promise has run to its end.  [other_text] is the text of a count
    outside the safe-integer range (see {!Js.number_text}). *)
Definition handlePdfUpload (other_text : Z -> string)
    (files : option (list File))
    (upload : Settled UploadResponse)
    (reload : Settled (list PdfCollection)) : Action unit :=
  match files with
  | None | Some [] => mret tt
  | Some selected =>
      emit (SetUploading true);;
      emit (Issue (PdfUploadStore (pdf_form selected)));;
      promise_chain upload
        (fun data =>
           emit (Toast {| title := "Upload Successful";
                          description :=
                            number_text other_text (file_count data)
                            ++ " PDF(s) uploaded successfully";
                          variant := None |});;
           fetchCollections_start)
        (fun error =>
           emit (ConsoleError "Upload failed:" error);;
           emit (Toast {| title := "Upload Failed";
                          description := "Failed to upload PDF files";
                          variant := Some "destructive" |}))
        (emit (SetUploading false));;
      match upload with
      | Fulfilled _ => fetchCollections_settle reload
      | Rejected _ => mret tt
      end
  end.

Inductive Platform : Type := Whatsapp | Teams | Slack.

Definition platform_name (p : Platform) : string :=
  match p with
  | Whatsapp => "whatsapp"
  | Teams => "teams"
  | Slack => "slack"
  end.

(** [platform] defaults to "whatsapp" when the caller leaves it out;
    [other_text] as in [handlePdfUpload]. *)
Definition handleChatUpload (other_text : Z -> string)
    (file : File) (platform : option Platform)
    (upload : Settled ChatUploadResponse) (reload : Settled JsVal)
  : Action unit :=
  let platform := default Whatsapp platform in
  emit (SetUploading true);;
  emit (Issue (ChatUploadStore
                 [("file", FormFile file);
                  ("platform", FormText (platform_name platform))]));;
  promise_chain upload
    (fun data =>
       emit (Toast {| title := "Chat Upload Successful";
                      description :=
                        number_text other_text (message_count data)
                        ++ " messages processed";
                      variant := None |});;
       fetchChatCollections_start)
    (fun error =>
       emit (ConsoleError "Chat upload failed:" error);;
       emit (Toast {| title := "Upload Failed";
                      description := "Failed to upload chat file";
                      variant := Some "destructive" |}))
    (emit (SetUploading false));;
  match upload with
  | Fulfilled _ => fetchChatCollections_settle reload
  | Rejected _ => mret tt
  end.

Definition deleteCollection (collectionId : string)
    (deleted : Settled JsVal) (reload : Settled (list PdfCollection))
  : Action unit :=
  emit (Issue (PdfCollectionDelete collectionId));;
  try_catch
    (match deleted with
     | Fulfilled _ =>
         emit (Toast {| title := "Collection Deleted";
                        description := "Collection deleted successfully";
                        variant := None |});;
         fetchCollections_start
     | Rejected e => throw e
     end)
    (fun error =>
       emit (ConsoleError "Delete failed:" error);;
       emit (Toast {| title := "Delete Failed";
                      description := "Failed to delete collection";
                      variant := Some "destructive" |}));;
  match deleted with
  | Fulfilled _ => fetchCollections_settle reload
  | Rejected _ => mret tt
  end.

Definition deleteChatCollection (collectionId : string)
    (deleted : Settled JsVal) (reload : Settled JsVal) : Action unit :=
  emit (Issue (ChatCollectionDelete collectionId));;
  try_catch
    (match deleted with
     | Fulfilled _ =>
         emit (Toast {| title := "Chat Collection Deleted";
                        description := "Chat collection deleted successfully";
                        variant := None |});;
         fetchChatCollections_start
     | Rejected e => throw e
     end)
    (fun error =>
       emit (ConsoleError "Delete failed:" error);;
       emit (Toast {| title := "Delete Failed";
                      description := "Failed to delete chat collection";
                      variant := Some "destructive" |}));;
  match deleted with
  | Fulfilled _ => fetchChatCollections_settle reload
  | Rejected _ => mret tt
  end.

(** *** Expansion *)

(** The updater passed to [setExpandedTables]: copy, then delete or add.
    The component reads the set through [has] only, so the [Set] is kept as
    its membership and the insertion order is left out. *)
Definition toggle (tableName : string) (prev : gset string) : gset string :=
  let newSet := prev in
  if decide (tableName ∈ newSet)
  then newSet ∖ {[tableName]}
  else newSet ∪ {[tableName]}.

Definition toggleTableExpansion (tableName : string) : Action unit :=
  emit (SetExpandedTables (toggle tableName)).

(** *** Observations on traces *)

Definition is_toast (e : Effect) : bool :=
  match e with Toast _ => true | _ => false end.

Definition is_request (e : Effect) : bool :=
  match e with Issue _ => true | _ => false end.

Definition toasts (trace : list Effect) : list Effect :=
  List.filter is_toast trace.
Definition requests (trace : list Effect) : list Effect :=
  List.filter is_request trace.


Definition is_upload (e : Effect) : bool :=
  match e with Issue (PdfUploadStore _) => true | _ => false end.

(** The three resource kinds and their loading cells. *)
Inductive Kind : Type := Documents | Chats | Tables.

Definition set_loading (k : Kind) (b : bool) : Effect :=
  match k with
  | Documents => SetLoadingPdf b
  | Chats => SetLoadingChat b
  | Tables => SetLoadingDb b
  end.

Definition loading (k : Kind) (s : State) : bool :=
  match k with
  | Documents => loadingPdf s
  | Chats => loadingChat s
  | Tables => loadingDb s
  end.

Definition writes_loading (k : Kind) (e : Effect) : bool :=
  match k, e with
  | Documents, SetLoadingPdf _ => true
  | Chats, SetLoadingChat _ => true
  | Tables, SetLoadingDb _ => true
  | _, _ => false
  end.

(** A trace that opens by writing [true] to the loading cell of [k] and
    sending a request, closes by writing [false], and does not write
    that cell in between. *)
Definition bracketed (k : Kind) (trace : list Effect) : Prop :=
  exists req middle,
    trace = set_loading k true :: Issue req :: middle ++ [set_loading k false]
    /\ Forall (fun e => writes_loading k e = false) middle.

(** A request that did not deliver a parsed body. *)
Definition fetch_failed (r : JsonFetch) : bool :=
  match r with
  | NetworkError _ | BodyNotJson _ => true
  | Body _ => false
  end.

(** The detail requests sent for a table list, in list order. *)
Definition detail_requests (env : Env) (items : list JsVal) : list Effect :=
  flat_map
    (fun table =>
       match get table "name" with
       | Normal name => [Issue (FetchDatabaseTable (apiUrl env) name)]
       | Throw _ => []
       end)
    items.

(** The chat list a response stands for, as the specification words it:
    a bare sequence, or the [collections] sequence of an envelope, and
    the empty sequence for any other shape. *)
Definition chat_items_spec (data : JsVal) : list JsVal :=
  match data with
  | JArr items => items
  | JObj fields =>
      match obj_get "collections" fields with
      | JArr items => items
      | _ => []
      end
  | _ => []
  end.

End Panel.

(** ** Tab controller and the inputs of the view *)

Module Tabs.
Import Title Js Panel.

Definition handleTabChange (tab : string) : Action unit :=
  emit (SetActiveTab tab).

(** The body of the effect on [activeTab], up to the point where the fetch
    it calls suspends. *)
Definition activeTab_effect (env : Env) (activeTab : string) : Action unit :=
  if String.eqb activeTab "pdf" then fetchCollections_start
  else if String.eqb activeTab "chat" then fetchChatCollections_start
  else if String.eqb activeTab "database" then fetchDbTables_start env
  else mret tt.

(** React runs an effect after the first render ([prev = None]) and after
    a render in which a dependency differs from its previous value. *)
Definition effect_runs (prev : option string) (next : string) : bool :=
  match prev with
  | None => true
  | Some p => negb (String.eqb p next)
  end.

(** A click on a tab, in state [s]: the setter, then the effect when the
    dependency has changed. *)
Definition select_tab (env : Env) (s : State) (tab : string) : Action unit :=
  handleTabChange tab;;
  if effect_runs (Some (activeTab s)) tab
  then activeTab_effect env tab
  else mret tt.

(** [onChange] of the chat file input:
    [e.target.files?.[0] && handleChatUpload(e.target.files[0])]. *)
Definition chat_input_change (other_text : Z -> string)
    (files : option (list File))
    (upload : Settled ChatUploadResponse) (reload : Settled JsVal)
  : Action unit :=
  match files with
  | Some (first :: _) => handleChatUpload other_text first None upload reload
  | Some [] | None => mret tt
  end.

End Tabs.

(** ** What the view shows *)

Module View.
Import Title Js Panel.

(** The outcome of evaluating a piece of the component's JSX: the
    elements it builds, or a crash when an expression in it throws.  What
    React and the imported components later do with the children they are
    handed is outside this model. *)
Inductive Render (A : Type) : Type :=
| Shown (a : A)
| Crashed.
Arguments Shown {A} a.
Arguments Crashed {A}.

#[export] Instance render_ret : MRet Render := fun A a => Shown a.
#[export] Instance render_bind : MBind Render := fun A B f m =>
  match m with
  | Shown a => f a
  | Crashed => Crashed
  end.

Definition run {A} (c : Completion A) : Render A :=
  match c with
  | Normal a => Shown a
  | Throw _ => Crashed
  end.

Fixpoint render_all {A B} (f : A -> Render B) (l : list A) : Render (list B) :=
  match l with
  | [] => mret []
  | x :: rest =>
      row ← f x;
      rows ← render_all f rest;
      mret (row :: rows)
  end.

(** A child of a text element: literal text, or a number put in braces. *)
Inductive Child : Type :=
| Text (s : string)
| Count (n : nat).

(** The three shapes of a list pane; the banner is the line shown above
    long lists. *)
Inductive Pane (A : Type) : Type :=
| Spinner
| EmptyMessage (text : string)
| Listing (banner : option (list Child)) (rows : list A).
Arguments Spinner {A}.
Arguments EmptyMessage {A} text.
Arguments Listing {A} banner rows.

(** The documents pane; its cards are built from typed collections and no
    expression in them throws. *)
Definition pdf_pane (s : State) : Pane PdfCollection :=
  if loadingPdf s then Spinner
  else if Nat.eqb (length (pdfCollections s)) 0
  then EmptyMessage "No PDF collections yet"
  else Listing
         (if Nat.ltb 50 (length (pdfCollections s))
          then Some [Text "Showing "; Count (length (pdfCollections s));
                     Text " collections"]
          else None)
         (pdfCollections s).

(** Whether the string coercion of a [key] succeeds: the element factory
    computes ['' + key], which throws for an object that has an own
    [toString] entry (a parsed value is never callable) and for an array
    holding such an object. *)
Fixpoint stringifies (v : JsVal) : bool :=
  match v with
  | JObj fields =>
      negb (existsb (fun entry => String.eqb (fst entry) "toString") fields)
  | JArr items => forallb stringifies items
  | _ => true
  end.

(** What a chat card reads from its collection. *)
Record ChatCard := {
  chat_key : JsVal;
  chat_file_name : JsVal;
  chat_message_count : JsVal;
  chat_platform : JsVal
}.

Definition chat_card (collection : JsVal) : Render ChatCard :=
  key ← run (get collection "collection_id");
  file_name ← run (get collection "file_name");
  message_count ← run (get collection "message_count");
  platform ← run (get collection "platform");
  if stringifies key
  then Shown {| chat_key := key; chat_file_name := file_name;
                chat_message_count := message_count;
                chat_platform := platform |}
  else Crashed.

Definition chat_pane (s : State) : Render (Pane ChatCard) :=
  if loadingChat s then Shown Spinner
  else if Nat.eqb (length (chatCollections s)) 0
  then Shown (EmptyMessage "No chat collections yet")
  else
    cards ← render_all chat_card (chatCollections s);
    Shown (Listing
             (if Nat.ltb 50 (length (chatCollections s))
              then Some [Text "Showing "; Count (length (chatCollections s));
                         Text " collections - Scroll to view all"]
              else None)
             cards).

(** The compact file list of a collection card: the names shown
    ([slice(0, 2)]) and the number behind "+n more", when there is one. *)
Definition file_preview (collection : PdfCollection)
  : option (list string * option nat) :=
  match file_names collection with
  | Some names =>
      if Nat.ltb 0 (length names)
      then Some (firstn 2 names,
                 if Nat.ltb 2 (length names)
                 then Some (length names - 2)
                 else None)
      else None
  | None => None
  end.

(** [columns && columns.length > 0]. *)
Definition has_columns (env : Env) (columns : JsVal) : Completion bool :=
  if truthy columns
  then len ← get columns "length"; mret (gt0 (coerced_gt0 env) len)
  else mret false.

Inductive RowIcon : Type := ChevronDown | ChevronRight | DatabaseIcon.

(** The icon in front of a table row; [name] is [table.name] and
    [columns] is [table.columns]. *)
Definition row_icon (env : Env) (expanded : gset string) (name : string)
    (columns : JsVal) : Completion RowIcon :=
  shown ← has_columns env columns;
  mret (if shown : bool
        then if bool_decide (name ∈ expanded) then ChevronDown else ChevronRight
        else DatabaseIcon).

Record ColumnRow := {
  col_name : JsVal;
  col_type : JsVal;
  not_null_badge : bool;
  pk_badge : bool
}.

(** [v === false]. *)
Definition is_false (v : JsVal) : bool :=
  match v with
  | JBool false => true
  | _ => false
  end.

(** One line of the column list. *)
Definition column_row (column : JsVal) : Completion ColumnRow :=
  name ← get column "name";
  type ← get column "type";
  nullable ← get column "nullable";
  primary_key ← get column "primary_key";
  mret {| col_name := name; col_type := type;
          not_null_badge := is_false nullable;
          pk_badge := truthy primary_key |}.

Fixpoint map_rows (columns : list JsVal) : Completion (list ColumnRow) :=
  match columns with
  | [] => mret []
  | column :: rest =>
      row ← column_row column;
      rows ← map_rows rest;
      mret (row :: rows)
  end.

(** The column list under a table row:
    [expandedTables.has(name) && columns && columns.length > 0 &&
     columns.map(...)]; [None] when nothing is rendered. *)
Definition column_list (env : Env) (expanded : gset string) (name : string)
    (columns : JsVal) : Completion (option (list ColumnRow)) :=
  if bool_decide (name ∈ expanded) then
    shown ← has_columns env columns;
    if shown : bool then
      match as_array columns with
      | Some items => rows ← map_rows items; mret (Some rows)
      | None => Throw TypeError
      end
    else mret None
  else mret None.

(** [row_icon] and [column_list] with the answer of
    [expandedTables.has(table.name)] given. *)
Definition row_icon_when (env : Env) (is_expanded : bool) (columns : JsVal)
  : Completion RowIcon :=
  shown ← has_columns env columns;
  mret (if shown : bool
        then if is_expanded then ChevronDown else ChevronRight
        else DatabaseIcon).

Definition column_list_when (env : Env) (is_expanded : bool) (columns : JsVal)
  : Completion (option (list ColumnRow)) :=
  if is_expanded then
    shown ← has_columns env columns;
    if shown : bool then
      match as_array columns with
      | Some items => rows ← map_rows items; mret (Some rows)
      | None => Throw TypeError
      end
    else mret None
  else mret None.





End View.

(** ** The version widget (src/components/version-info.tsx) *)

Module Version.
Import Js Panel View.

(** The value given to [setVersionData]. *)
Record VersionData := {
  backend : JsVal;
  frontend_version : string;
  frontend_last_updated : string
}.

Record VState := {
  versionData : option VersionData;
  vloading : bool
}.

Definition vinitial : VState := {| versionData := None; vloading := true |}.

Inductive VEffect : Type :=
| VIssue (url : string)
| SetVersionData (data : VersionData)
| SetLoading (b : bool)
| VConsoleError (msg : string) (error : JsVal).

Definition vapply (s : VState) (e : VEffect) : VState :=
  match e with
  | SetVersionData data => {| versionData := Some data; vloading := vloading s |}
  | SetLoading b => {| versionData := versionData s; vloading := b |}
  | VIssue _ | VConsoleError _ _ => s
  end.

Definition vreplay (s : VState) (trace : list VEffect) : VState :=
  fold_left vapply trace s.

(** The build-time variables: [NEXT_PUBLIC_API_URL] and
    [NEXT_PUBLIC_BUILD_TIME], each possibly unset. *)
Record ProcessEnv := {
  NEXT_PUBLIC_API_URL : option string;
  NEXT_PUBLIC_BUILD_TIME : option string
}.

(** An unset variable inside a template literal reads "undefined". *)
Definition interpolate (v : option string) : string :=
  match v with
  | Some text => text
  | None => "undefined"
  end.

(** [process.env.NEXT_PUBLIC_BUILD_TIME || new Date().toISOString()];
    [now] is the ISO time of the call. *)
Definition frontendBuildTime (penv : ProcessEnv) (now : string) : string :=
  match NEXT_PUBLIC_BUILD_TIME penv with
  | Some text => if String.eqb text "" then now else text
  | None => now
  end.

Definition fetchVersionInfo (penv : ProcessEnv) (now : string)
    (response : JsonFetch) : list VEffect :=
  [VIssue (interpolate (NEXT_PUBLIC_API_URL penv) +:+ "/api/v1/version")]
  ++ match response with
     | NetworkError error | BodyNotJson error =>
         [VConsoleError "Failed to fetch version info:" error]
     | Body backendData =>
         match get backendData "backend" with
         | Normal b =>
             [SetVersionData {| backend := b;
                                frontend_version := "1.0.0";
                                frontend_last_updated :=
                                  frontendBuildTime penv now |}]
         | Throw error =>
             [VConsoleError "Failed to fetch version info:" error]
         end
     end
  ++ [SetLoading false].

(** The tooltip reads [version], [last_updated] and [python_version] of
    [versionData.backend]. *)
Definition backend_fields (data : VersionData)
  : Completion (JsVal * JsVal * JsVal) :=
  version ← get (backend data) "version";
  last_updated ← get (backend data) "last_updated";
  python_version ← get (backend data) "python_version";
  mret (version, last_updated, python_version).

(** [formatDate]: the localised text of the date, or the argument itself
    when building it throws.  [to_locale] stands for
    [new Date(isoString).toLocaleString("id-ID", ...)]. *)
Definition formatDate (to_locale : JsVal -> Completion string)
    (isoString : JsVal) : JsVal :=
  match to_locale isoString with
  | Normal text => JStr text
  | Throw _ => isoString
  end.

(** What the widget puts on the screen. *)
Record Widget := {
  shown_frontend_version : string;
  shown_frontend_updated : JsVal;
  shown_backend_version : JsVal;
  shown_backend_updated : JsVal;
  shown_python_version : JsVal
}.

(** The body of the component after its hooks: [null] behind the guard
    [loading || !versionData], else the button and its tooltip, whose
    expressions are evaluated when the component runs. *)
Definition render_version (to_locale : JsVal -> Completion string)
    (s : VState) : Render (option Widget) :=
  if vloading s then Shown None
  else match versionData s with
       | None => Shown None
       | Some data =>
           run (fields ← backend_fields data;
                let '(version, last_updated, python_version) := fields in
                mret (Some {| shown_frontend_version := frontend_version data;
                              shown_frontend_updated :=
                                formatDate to_locale
                                  (JStr (frontend_last_updated data));
                              shown_backend_version := version;
                              shown_backend_updated :=
                                formatDate to_locale last_updated;
                              shown_python_version := python_version |}))
       end.

End Version.

(** * Properties *)

Import Title Js Panel Tabs View Version.

(** ** Title derivation *)

Section TitleFacts.

Lemma ci_eqb_p (c : ascii) :
  ci_eqb c "p" = Ascii.eqb c "p" || Ascii.eqb c "P".
Proof. destruct c as [[] [] [] [] [] [] [] []]; reflexivity. Qed.

Lemma ci_eqb_d (c : ascii) :
  ci_eqb c "d" = Ascii.eqb c "d" || Ascii.eqb c "D".
Proof. destruct c as [[] [] [] [] [] [] [] []]; reflexivity. Qed.

Lemma ci_eqb_f (c : ascii) :
  ci_eqb c "f" = Ascii.eqb c "f" || Ascii.eqb c "F".
Proof. destruct c as [[] [] [] [] [] [] [] []]; reflexivity. Qed.

(** The anchored, case-insensitive pattern accepts exactly the four
    character strings [.pdf] in any letter case. *)
Lemma match_dot_pdf_end_is_dot_pdf (s : string) :
  match_dot_pdf_end s = is_dot_pdf s.
Proof.
  destruct s as [|c0 [|c1 [|c2 [|c3 [|c4 r]]]]]; try reflexivity.
  cbn [match_dot_pdf_end is_dot_pdf].
  by rewrite ci_eqb_p, ci_eqb_d, ci_eqb_f.
Qed.

Lemma is_dot_pdf_length (e : string) :
  is_dot_pdf e = true -> String.length e = 4.
Proof.
  destruct e as [|c0 [|c1 [|c2 [|c3 [|c4 r]]]]]; cbn; congruence.
Qed.

Lemma substring_whole (s : string) : substring 0 (String.length s) s = s.
Proof. induction s as [|a s IH]; cbn; [done | by rewrite IH]. Qed.

(** The regular-expression replacement is suffix stripping. *)
Lemma replace_dot_pdf_end_strip (s : string) :
  replace_dot_pdf_end s = strip_pdf_suffix s.
Proof.
  induction s as [|a s IH]; [reflexivity|].
  cbn [replace_dot_pdf_end].
  rewrite match_dot_pdf_end_is_dot_pdf.
  destruct (is_dot_pdf (String a s)) eqn:Hm.
  - pose proof (is_dot_pdf_length _ Hm) as Hlen.
    unfold strip_pdf_suffix. rewrite Hlen. cbn [Nat.leb Nat.sub andb].
    replace 4 with (String.length (String a s)) at 1 by done.
    rewrite substring_whole, Hm. reflexivity.
  - rewrite IH. unfold strip_pdf_suffix.
    cbn [String.length].
    destruct (Nat.le_gt_cases 4 (String.length s)) as [Hge|Hlt].
    + (* the suffix window lies inside [s] *)
      assert (Hsub : S (String.length s) - 4 = S (String.length s - 4))
        by lia.
      rewrite Hsub.
      replace (4 <=? S (String.length s))%nat with true
        by (symmetry; apply Nat.leb_le; lia).
      replace (4 <=? String.length s)%nat with true
        by (symmetry; apply Nat.leb_le; lia).
      cbn [andb substring].
      destruct (is_dot_pdf (substring (String.length s - 4) 4 s));
        reflexivity.
    + replace (4 <=? String.length s)%nat with false
        by (symmetry; apply Nat.leb_gt; lia).
      cbn [andb].
      destruct (Nat.eq_dec (String.length s) 3) as [H3|Hn3].
      * rewrite H3. cbn [Nat.leb Nat.sub andb].
        replace 4 with (String.length (String a s)) at 1
          by (cbn; by rewrite H3).
        rewrite substring_whole, Hm. reflexivity.
      * replace (4 <=? S (String.length s))%nat with false
          by (symmetry; apply Nat.leb_gt; lia).
        reflexivity.
Qed.

(** The two global replacements amount to one pass over the string. *)
Lemma replace_all_separators (s : string) :
  replace_all "-" " " (replace_all "_" " " s)
  = map_chars separator_to_space s.
Proof.
  induction s as [|a s IH]; [reflexivity|].
  cbn [replace_all map_chars]. rewrite IH. f_equal.
  unfold separator_to_space.
  destruct (Ascii.eqb a "_") eqn:Hu; [reflexivity|].
  destruct (Ascii.eqb a "-"); reflexivity.
Qed.

Lemma substring_app_drop (p e : string) :
  substring (String.length p) (String.length e) (p ++ e) = e.
Proof.
  induction p as [|a p IH]; [apply substring_whole|].
  change (String a p +:+ e) with (String a (p +:+ e)). exact IH.
Qed.

Lemma substring_app_take (p e : string) :
  substring 0 (String.length p) (p ++ e) = p.
Proof.
  induction p as [|a p IH]; [by destruct e|].
  change (String a p +:+ e) with (String a (p +:+ e)).
  cbn [String.length substring]. by rewrite IH.
Qed.

Lemma string_app_length (p e : string) :
  String.length (p ++ e) = String.length p + String.length e.
Proof.
  induction p as [|a p IH]; [done|].
  change (String a p +:+ e) with (String a (p +:+ e)).
  cbn [String.length]. by rewrite IH.
Qed.

(** Stripping removes the extension from any name that carries it. *)
Lemma strip_pdf_suffix_app (p e : string) :
  is_dot_pdf e = true -> strip_pdf_suffix (p ++ e) = p.
Proof.
  intros He. pose proof (is_dot_pdf_length _ He) as Hlen.
  unfold strip_pdf_suffix. rewrite string_app_length, Hlen.
  replace (String.length p + 4 - 4) with (String.length p) by lia.
  replace (4 <=? String.length p + 4)%nat with true
    by (symmetry; apply Nat.leb_le; lia).
  rewrite <- Hlen at 1. rewrite substring_app_drop, He.
  cbn [andb]. apply substring_app_take.
Qed.

Lemma map_chars_no_separator (s : string) (a : ascii) :
  In a (list_ascii_of_string (map_chars separator_to_space s)) ->
  a <> "_"%char /\ a <> "-"%char.
Proof.
  induction s as [|b s IH]; cbn; [tauto|].
  intros [<-|Hin]; [|auto].
  unfold separator_to_space.
  destruct (Ascii.eqb b "_") eqn:Hu; cbn; [split; discriminate|].
  destruct (Ascii.eqb b "-") eqn:Hh; cbn; [split; discriminate|].
  apply Ascii.eqb_neq in Hu, Hh. tauto.
Qed.

Lemma map_chars_length (f : ascii -> ascii) (s : string) :
  String.length (map_chars f s) = String.length s.
Proof. induction s as [|a s IH]; cbn; [done | by rewrite IH]. Qed.

Lemma substring_length_le (n : nat) (s : string) :
  (n <= String.length s)%nat -> String.length (substring 0 n s) = n.
Proof.
  revert n. induction s as [|a s IH]; intros [|n] Hn; cbn in *; try lia.
  rewrite IH; lia.
Qed.

(** Stripping removes nothing or exactly four characters. *)
Lemma strip_pdf_suffix_length (s : string) :
  String.length (strip_pdf_suffix s) = String.length s
  \/ String.length (strip_pdf_suffix s) + 4 = String.length s.
Proof.
  unfold strip_pdf_suffix.
  destruct (4 <=? String.length s)%nat eqn:Hlen; [|by left].
  apply Nat.leb_le in Hlen.
  destruct (is_dot_pdf _); [|by left].
  right. cbn [andb]. rewrite substring_length_le; lia.
Qed.

(** A string is its first [n] characters followed by the rest. *)
Lemma substring_split (n : nat) (s : string) :
  (n <= String.length s)%nat ->
  s = substring 0 n s +:+ substring n (String.length s - n) s.
Proof.
  revert n. induction s as [|a s IH]; intros [|n] Hn; cbn in Hn |- *.
  - reflexivity.
  - lia.
  - cbn [substring String.length Nat.sub].
    change ("" +:+ ?x) with x. by rewrite substring_whole.
  - cbn [substring String.length Nat.sub].
    change (String a ?x +:+ ?y) with (String a (x +:+ y)).
    f_equal. apply IH. lia.
Qed.

(** The helper computes the title the specification describes. *)
Lemma getCollectionTitle_title_spec (c : PdfCollection) :
  getCollectionTitle c = title_spec c.
Proof.
  destruct c as [id [[|first rest]|] n t]; try reflexivity.
  unfold getCollectionTitle, title_spec; cbn [file_names].
  by rewrite replace_dot_pdf_end_strip, replace_all_separators.
Qed.

End TitleFacts.

(** C3. [getCollectionTitle] is a function of the collection alone: for
    a non-empty [file_names] it is the first entry with a trailing [.pdf]
    (any letter case) stripped and every underscore and hyphen turned
    into a space, so that "Annual_Report-2023.PDF" gives
    "Annual Report 2023"; for an empty [file_names] it is
    "Untitled Collection" whatever the other fields are. *)
Theorem getCollectionTitle_spec :
  (forall c, getCollectionTitle c = title_spec c)
  /\ (forall id first rest n t,
        getCollectionTitle {| collection_id := id;
                              file_names := Some (first :: rest);
                              document_count := n; created_at := t |}
        = map_chars separator_to_space (strip_pdf_suffix first))
  /\ (forall id n t,
        getCollectionTitle {| collection_id := id; file_names := Some [];
                              document_count := n; created_at := t |}
        = "Untitled Collection")
  /\ (forall id n t,
        getCollectionTitle {| collection_id := id; file_names := None;
                              document_count := n; created_at := t |}
        = "Untitled Collection")
  /\ (forall id rest n t,
        getCollectionTitle {| collection_id := id;
                              file_names :=
                                Some ("Annual_Report-2023.PDF" :: rest);
                              document_count := n; created_at := t |}
        = "Annual Report 2023").
Proof.
  assert (H : forall c, getCollectionTitle c = title_spec c).
  { intros [id [[|first rest]|] n t]; [reflexivity| |reflexivity].
    unfold getCollectionTitle, title_spec; cbn [file_names].
    by rewrite replace_dot_pdf_end_strip, replace_all_separators. }
  repeat split; try done.
Qed.

(** ** Expansion tracker *)

Section ToggleFacts.
Implicit Types (S : gset string) (t u : string).

Lemma toggle_absent S t : t ∉ S -> toggle t S = S ∪ {[t]}.
Proof. intros Hin. unfold toggle. by rewrite decide_False. Qed.

Lemma toggle_present S t : t ∈ S -> toggle t S = S ∖ {[t]}.
Proof. intros Hin. unfold toggle. by rewrite decide_True. Qed.

Lemma elem_of_toggle S t u : u ∈ toggle t S <-> (u ∈ S <-> u ≠ t).
Proof.
  unfold toggle. case_decide as Hin.
  - rewrite elem_of_difference, elem_of_singleton.
    destruct (decide (u = t)) as [->|Hne]; tauto.
  - rewrite elem_of_union, elem_of_singleton.
    destruct (decide (u = t)) as [->|Hne]; tauto.
Qed.

Lemma toggle_twice S t : toggle t (toggle t S) = S.
Proof.
  apply set_eq. intros u. rewrite !elem_of_toggle.
  destruct (decide (u = t)) as [->|Hne]; [|tauto].
  destruct (decide (t ∈ S)); tauto.
Qed.

End ToggleFacts.

(** C6. Toggling a table name twice gives back the expanded set; toggling
    once a name that is not in the set adds it; membership of every other
    name is unchanged.  The handler writes the expanded set only: it sends
    no request and leaves the tables (so also their columns) and every
    other cell as they were. *)
Theorem toggleTableExpansion_round_trip (S : gset string) (t : string) :
  toggle t (toggle t S) = S
  /\ (t ∉ S -> toggle t S = S ∪ {[t]})
  /\ (forall u, u ≠ t -> (u ∈ toggle t S <-> u ∈ S))
  /\ toggleTableExpansion t = ([SetExpandedTables (toggle t)], Normal tt)
  /\ requests (trace_of (toggleTableExpansion t)) = []
  /\ (forall s,
        replay s (trace_of (toggleTableExpansion t))
        = {| activeTab := activeTab s;
             pdfCollections := pdfCollections s;
             chatCollections := chatCollections s;
             dbTables := dbTables s;
             uploading := uploading s;
             loadingPdf := loadingPdf s;
             loadingChat := loadingChat s;
             loadingDb := loadingDb s;
             expandedTables := toggle t (expandedTables s) |})
  /\ (forall s,
        expandedTables
          (replay (replay s (trace_of (toggleTableExpansion t)))
                  (trace_of (toggleTableExpansion t)))
        = expandedTables s).
Proof.
  split; [apply toggle_twice|].
  split; [apply toggle_absent|].
  split; [intros u Hne; rewrite elem_of_toggle; tauto|].
  repeat split; try reflexivity.
  intros s. cbn. apply toggle_twice.
Qed.

Lemma toggleTableExpansion_round_trip_witness :
  ("users" ∉ ({["orders"]} : gset string))
  /\ toggle "users" ({["orders"]} : gset string) = {["orders"]} ∪ {["users"]}
  /\ ("orders" ∈ toggle "users" ({["orders"]} : gset string)
      <-> "orders" ∈ ({["orders"]} : gset string)).
Proof.
  destruct (toggleTableExpansion_round_trip {["orders"]} "users")
    as [_ [Hadd [Hother _]]].
  assert (Hnot : "users" ∉ ({["orders"]} : gset string))
    by (intros Hin; apply elem_of_singleton in Hin; discriminate).
  split; [exact Hnot|].
  split; [exact (Hadd Hnot)|].
  apply Hother. discriminate.
Defined.

(** ** Fetch coordinator *)

Section FetchFacts.
Implicit Types (s : State) (env : Env) (e : JsVal).

Lemma for_each_request_detail env (items : list JsVal) :
  for_each (request_detail env) items = (detail_requests env items, Normal tt).
Proof.
  induction items as [|table items IH]; [reflexivity|].
  cbn [for_each detail_requests flat_map].
  change (flat_map _ items) with (detail_requests env items).
  unfold mbind, action_bind. rewrite IH.
  unfold request_detail.
  destruct table; reflexivity.
Qed.

Lemma gt0_length_cons env (x : JsVal) (items : list JsVal) :
  gt0 (coerced_gt0 env)
      (JNum (inject_Z (Z.of_nat (length (x :: items))))) = true.
Proof. reflexivity. Qed.

(** A listed, non-empty [tables] array: one detail request per table
    that has a readable [name], then a single store update. *)
Lemma on_tables_nonempty env (details : nat -> JsonFetch)
    (fields : list (string * JsVal)) (x : JsVal) (items : list JsVal) :
  obj_get "tables" fields = JArr (x :: items) ->
  on_tables env details (JObj fields)
  = (detail_requests env (x :: items)
       ++ [SetDbTables
             (imap (fun i table => detail_record table (details i))
                   (x :: items))],
     Normal tt).
Proof.
  intros Ht. unfold on_tables. cbn [get lift mbind action_bind]. rewrite Ht.
  cbn [truthy get String.eqb Ascii.eqb Bool.eqb lift mbind action_bind
       mret action_ret app].
  rewrite gt0_length_cons. cbn [as_array mbind action_bind].
  rewrite for_each_request_detail. reflexivity.
Qed.

(** The three ways the table-list handler ends. *)
Lemma on_tables_cases env (details : nat -> JsonFetch) (data : JsVal) :
  (exists fields x items,
      data = JObj fields
      /\ obj_get "tables" fields = JArr (x :: items)
      /\ on_tables env details data
         = (detail_requests env (x :: items)
              ++ [SetDbTables
                    (imap (fun i table => detail_record table (details i))
                          (x :: items))],
            Normal tt))
  \/ on_tables env details data = ([SetDbTables []], Normal tt)
  \/ (exists err, on_tables env details data = ([], Throw err)).
Proof.
  destruct data as [| |b|q|str|arr|fields];
    try (right; left; reflexivity);
    try (right; right; eexists; reflexivity).
  destruct (obj_get "tables" fields) as [| |b|q|str|[|x items]|tfields] eqn:Ht.
  7: { left. exists fields, x, items.
       split; [reflexivity|]. split; [exact Ht|].
       by apply on_tables_nonempty. }
  all: right; unfold on_tables; cbn [get lift mbind action_bind]; rewrite Ht.
  - left; reflexivity.
  - left; reflexivity.
  - left; destruct b; reflexivity.
  - left. cbn. destruct (Qeq_bool q 0); reflexivity.
  - destruct str as [|a str];
      [left; reflexivity | right; eexists; reflexivity].
  - left; reflexivity.
  - cbn [truthy get lift mbind action_bind mret action_ret app].
    destruct (gt0 (coerced_gt0 env) (obj_get "length" tfields)); cbn;
      [right; eexists; reflexivity | left; reflexivity].
Qed.

(** The whole table fetch in terms of what its list handler does. *)
Lemma fetchDbTables_body env (details : nat -> JsonFetch) (data : JsVal) :
  fetchDbTables env (Body data) details
  = match on_tables env details data with
    | (t, Normal _) =>
        (SetLoadingDb true :: Issue (FetchDatabaseTables (apiUrl env))
           :: t ++ [SetLoadingDb false], Normal tt)
    | (t, Throw err) =>
        (SetLoadingDb true :: Issue (FetchDatabaseTables (apiUrl env))
           :: t ++ [ConsoleError "Failed to fetch database tables:" err;
                    SetLoadingDb false], Normal tt)
    end.
Proof.
  unfold fetchDbTables, fetchDbTables_settle, promise_chain, try_catch.
  cbn [json_of fetchDbTables_start emit mbind action_bind app].
  destruct (on_tables env details data) as [t [[]|err]]; cbn [app].
  - reflexivity.
  - by rewrite <- app_assoc.
Qed.

Lemma fetchDbTables_rejected env (r : JsonFetch) (details : nat -> JsonFetch)
    e :
  json_of r = Rejected e ->
  fetchDbTables env r details
  = ([SetLoadingDb true; Issue (FetchDatabaseTables (apiUrl env));
      ConsoleError "Failed to fetch database tables:" e;
      SetLoadingDb false], Normal tt).
Proof.
  intros Hr. unfold fetchDbTables, fetchDbTables_settle. rewrite Hr.
  reflexivity.
Qed.

Lemma detail_requests_are_requests env (items : list JsVal) :
  Forall (fun ev => is_request ev = true) (detail_requests env items).
Proof.
  induction items as [|table items IH]; [constructor|].
  cbn [detail_requests flat_map].
  change (flat_map _ items) with (detail_requests env items).
  destruct (get table "name"); cbn [app]; [constructor|]; done.
Qed.

Lemma filter_none {A} (p : A -> bool) (l : list A) :
  Forall (fun x => p x = false) l -> List.filter p l = [].
Proof.
  induction 1 as [|x l Hx _ IH]; [reflexivity|].
  cbn. by rewrite Hx.
Qed.

Lemma requests_only {A} (p q : A -> bool) (l : list A) :
  (forall x, p x = true -> q x = false) ->
  Forall (fun x => p x = true) l -> Forall (fun x => q x = false) l.
Proof.
  intros Hpq. induction 1 as [|x l Hx _ IH]; constructor; auto.
Qed.

Lemma toasts_detail_requests env (items : list JsVal) :
  toasts (detail_requests env items) = [].
Proof.
  apply filter_none.
  eapply requests_only; [|apply detail_requests_are_requests].
  by intros [].
Qed.


Lemma replay_detail_requests env (items : list JsVal) s :
  replay s (detail_requests env items) = s.
Proof.
  pose proof (detail_requests_are_requests env items) as Hall.
  induction Hall as [|ev l Hev _ IH]; [reflexivity|].
  destruct ev; try discriminate. exact IH.
Qed.

Lemma replay_app s (t1 t2 : list Effect) :
  replay s (t1 ++ t2) = replay (replay s t1) t2.
Proof. apply fold_left_app. Qed.

(** No path of the table fetch shows a toast. *)
Lemma fetchDbTables_no_toast env (r : JsonFetch) (details : nat -> JsonFetch) :
  toasts (trace_of (fetchDbTables env r details)) = [].
Proof.
  destruct r as [e|e|data]; try reflexivity.
  rewrite fetchDbTables_body.
  destruct (on_tables_cases env details data)
    as [(fields & x & items & -> & _ & ->) | [-> | [err ->]]];
    try reflexivity.
  unfold trace_of, toasts. cbn [fst List.filter is_toast].
  rewrite <- app_assoc, List.filter_app.
  fold (toasts (detail_requests env (x :: items))).
  by rewrite toasts_detail_requests.
Qed.

Lemma fetchDbTables_bracketed env (r : JsonFetch)
    (details : nat -> JsonFetch) :
  bracketed Tables (trace_of (fetchDbTables env r details)).
Proof.
  unfold bracketed.
  destruct r as [e|e|data];
    try (eexists _, [_]; split; [reflexivity|by repeat constructor]).
  rewrite fetchDbTables_body.
  destruct (on_tables_cases env details data)
    as [(fields & x & items & -> & _ & ->) | [-> | [err ->]]].
  - eexists _, _. split; [reflexivity|].
    apply Forall_app. split; [|by repeat constructor].
    eapply requests_only; [|apply detail_requests_are_requests].
    by intros [].
  - eexists _, [_]. split; [reflexivity|by repeat constructor].
  - eexists _, [_]. split; [reflexivity|by repeat constructor].
Qed.

End FetchFacts.

Section ChatFacts.

(** A fulfilled chat list request stores the normalised items and
    nothing else. *)
Lemma fetchChatCollections_fulfilled (data : JsVal) :
  fetchChatCollections (Fulfilled data)
  = ([SetLoadingChat true; Issue ChatCollectionsGet;
      SetChatCollections (chat_items_spec data); SetLoadingChat false],
     Normal tt).
Proof.
  destruct data as [| |[]|q|[|a str]|arr|fields]; try reflexivity.
  - unfold fetchChatCollections, fetchChatCollections_settle,
      promise_chain, try_catch. cbn.
    destruct (Qeq_bool q 0); reflexivity.
  - unfold fetchChatCollections, fetchChatCollections_settle,
      promise_chain, try_catch. cbn.
    destruct (obj_get "collections" fields); reflexivity.
Qed.

Lemma fetchChatCollections_settle_fulfilled (data : JsVal) :
  fetchChatCollections_settle (Fulfilled data)
  = ([SetChatCollections (chat_items_spec data); SetLoadingChat false],
     Normal tt).
Proof.
  destruct data as [| |[]|q|[|a str]|arr|fields]; try reflexivity.
  - unfold fetchChatCollections_settle, promise_chain, try_catch. cbn.
    destruct (Qeq_bool q 0); reflexivity.
  - unfold fetchChatCollections_settle, promise_chain, try_catch. cbn.
    destruct (obj_get "collections" fields); reflexivity.
Qed.

End ChatFacts.

(** C9. One call of a list fetch writes [true] to the loading cell of its
    kind before the request is sent and writes [false] once the response
    has settled, whether it was fulfilled or rejected; the cell is not
    written in between, so each call brackets its request with one
    true/false pair. *)
Theorem loading_flag_brackets_each_fetch :
  (forall resp,
      trace_of fetchCollections_start = [SetLoadingPdf true; Issue PdfCollectionsGet]
      /\ trace_of (fetchCollections resp)
         = trace_of fetchCollections_start
             ++ trace_of (fetchCollections_settle resp)
      /\ bracketed Documents (trace_of (fetchCollections resp)))
  /\ (forall resp,
        trace_of fetchChatCollections_start
        = [SetLoadingChat true; Issue ChatCollectionsGet]
        /\ trace_of (fetchChatCollections resp)
           = trace_of fetchChatCollections_start
               ++ trace_of (fetchChatCollections_settle resp)
        /\ bracketed Chats (trace_of (fetchChatCollections resp)))
  /\ (forall env list_resp details,
        trace_of (fetchDbTables_start env)
        = [SetLoadingDb true; Issue (FetchDatabaseTables (apiUrl env))]
        /\ trace_of (fetchDbTables env list_resp details)
           = trace_of (fetchDbTables_start env)
               ++ trace_of (fetchDbTables_settle env list_resp details)
        /\ bracketed Tables (trace_of (fetchDbTables env list_resp details)))
  /\ (forall s env,
        loading Documents (replay s (trace_of fetchCollections_start)) = true
        /\ loading Chats (replay s (trace_of fetchChatCollections_start)) = true
        /\ loading Tables (replay s (trace_of (fetchDbTables_start env))) = true)
  /\ (forall s env resp chat_resp list_resp details,
        loading Documents (replay s (trace_of (fetchCollections resp))) = false
        /\ loading Chats (replay s (trace_of (fetchChatCollections chat_resp)))
           = false
        /\ loading Tables
             (replay s (trace_of (fetchDbTables env list_resp details)))
           = false).
Proof.
  assert (Hchat : forall resp,
             exists middle,
               fetchChatCollections resp
               = (SetLoadingChat true :: Issue ChatCollectionsGet
                    :: middle ++ [SetLoadingChat false], Normal tt)
               /\ Forall (fun e => writes_loading Chats e = false) middle).
  { intros [data|e].
    - rewrite fetchChatCollections_fulfilled.
      eexists [_]; split; [reflexivity|by repeat constructor].
    - eexists [_; _; _]. split; [reflexivity|by repeat constructor]. }
  split; [|split; [|split; [|split]]].
  - intros [data|e]; (split; [reflexivity|]); (split; [reflexivity|]).
    + eexists _, [_; _]. split; [reflexivity|by repeat constructor].
    + eexists _, [_; _]. split; [reflexivity|by repeat constructor].
  - intros resp. split; [reflexivity|].
    destruct (Hchat resp) as (middle & Heq & Hmid).
    split.
    + unfold fetchChatCollections in *.
      destruct (fetchChatCollections_settle resp) as [t c]. reflexivity.
    + rewrite Heq. by eexists _, middle.
  - intros env list_resp details. split; [reflexivity|]. split.
    + unfold fetchDbTables.
      destruct (fetchDbTables_settle env list_resp details) as [t c].
      reflexivity.
    + apply fetchDbTables_bracketed.
  - intros s env. by repeat split.
  - intros s env resp chat_resp list_resp details. split; [|split].
    + by destruct resp.
    + destruct (Hchat chat_resp) as (middle & -> & _).
      unfold trace_of; cbn [fst].
      change (?a :: ?b :: middle ++ ?c) with ([a; b] ++ middle ++ c).
      by rewrite !replay_app.
    + destruct (fetchDbTables_bracketed env list_resp details)
        as (req & middle & -> & _).
      change (?a :: ?b :: middle ++ ?c) with ([a; b] ++ middle ++ c).
      by rewrite !replay_app.
Qed.

(** C8. A failing table list fetch shows no toast: the failure is only
    written to the console.  A failing documents fetch and a failing chats
    fetch each show a toast.  This holds for every failure of each kind. *)
Theorem database_failure_is_logged_not_toasted :
  (forall env list_resp details,
      fetch_failed list_resp = true ->
      toasts (trace_of (fetchDbTables env list_resp details)) = []
      /\ exists e,
          In (ConsoleError "Failed to fetch database tables:" e)
             (trace_of (fetchDbTables env list_resp details)))
  /\ (forall env list_resp details,
        toasts (trace_of (fetchDbTables env list_resp details)) = [])
  /\ (forall e,
        toasts (trace_of (fetchCollections (Rejected e)))
        = [Toast {| title := "Error";
                    description := "Failed to fetch PDF collections";
                    variant := Some "destructive" |}])
  /\ (forall e,
        toasts (trace_of (fetchChatCollections (Rejected e)))
        = [Toast {| title := "Error";
                    description := "Failed to fetch chat collections";
                    variant := Some "destructive" |}]).
Proof.
  split; [|split; [apply fetchDbTables_no_toast|by split]].
  intros env list_resp details Hfail.
  split; [apply fetchDbTables_no_toast|].
  destruct list_resp as [e|e|data]; [| |discriminate];
    exists e; cbn; tauto.
Qed.

Lemma database_failure_is_logged_not_toasted_witness :
  toasts (trace_of (fetchDbTables
                      {| apiUrl := "http://localhost:8000";
                         coerced_gt0 := fun _ => false |}
                      (NetworkError (JStr "Failed to fetch"))
                      (fun _ => NetworkError JNull))) = [].
Proof.
  apply (proj1 database_failure_is_logged_not_toasted
           {| apiUrl := "http://localhost:8000"; coerced_gt0 := fun _ => false |}
           (NetworkError (JStr "Failed to fetch"))
           (fun _ => NetworkError JNull)).
  reflexivity.
Defined.

(** C10. When the table list fetch fails (the request is rejected or the
    body is not JSON) the tables cell keeps the items it held before the
    call; of all the cells only the database loading flag is written, and
    it ends [false]. *)
Theorem fetchDbTables_failure_keeps_tables :
  forall env s list_resp details,
    fetch_failed list_resp = true ->
    replay s (trace_of (fetchDbTables env list_resp details))
    = {| activeTab := activeTab s;
         pdfCollections := pdfCollections s;
         chatCollections := chatCollections s;
         dbTables := dbTables s;
         uploading := uploading s;
         loadingPdf := loadingPdf s;
         loadingChat := loadingChat s;
         loadingDb := false;
         expandedTables := expandedTables s |}.
Proof.
  intros env s [e|e|data] details Hfail; [reflexivity|reflexivity|discriminate].
Qed.

Lemma fetchDbTables_failure_keeps_tables_witness :
  dbTables
    (replay
       {| activeTab := "database"; pdfCollections := []; chatCollections := [];
          dbTables := [JObj [("name", JStr "users")]];
          uploading := false; loadingPdf := false; loadingChat := false;
          loadingDb := false; expandedTables := ∅ |}
       (trace_of (fetchDbTables
                    {| apiUrl := "http://localhost:8000";
                       coerced_gt0 := fun _ => false |}
                    (BodyNotJson (JStr "Unexpected token"))
                    (fun _ => NetworkError JNull))))
  = [JObj [("name", JStr "users")]].
Proof.
  rewrite (fetchDbTables_failure_keeps_tables
             {| apiUrl := "http://localhost:8000";
                coerced_gt0 := fun _ => false |}
             {| activeTab := "database"; pdfCollections := [];
                chatCollections := [];
                dbTables := [JObj [("name", JStr "users")]];
                uploading := false; loadingPdf := false; loadingChat := false;
                loadingDb := false; expandedTables := ∅ |}
             (BodyNotJson (JStr "Unexpected token"))
             (fun _ => NetworkError JNull) eq_refl).
  reflexivity.
Defined.

(** The record stored at each position of a fetched, non-empty list. *)
Lemma fetchDbTables_detail_record_at (env : Env) (s : State)
    (fields : list (string * JsVal)) (x : JsVal) (items : list JsVal)
    (details : nat -> JsonFetch) :
  obj_get "tables" fields = JArr (x :: items) ->
  forall i table,
    (x :: items) !! i = Some table ->
    dbTables (replay s (trace_of (fetchDbTables env (Body (JObj fields))
                                    details))) !! i
    = Some (detail_record table (details i)).
Proof.
  intros Ht i table Hi.
  rewrite fetchDbTables_body, (on_tables_nonempty env details fields x items Ht).
  unfold trace_of. cbn [fst].
  change (?a :: ?b :: ?l ++ ?c) with ([a; b] ++ l ++ c).
  rewrite <- app_assoc, !replay_app, replay_detail_requests.
  cbn [replay fold_left apply dbTables app].
  by rewrite list_lookup_imap, Hi.
Qed.



(** ** Documents fetch on failure *)

(** What a rejected documents request does to any state: a toast, the
    loading flag cleared, and the items left as they were. *)
Lemma fetchCollections_rejected (s : State) (e : JsVal) :
  let trace := trace_of (fetchCollections (Rejected e)) in
  toasts trace
  = [Toast {| title := "Error";
              description := "Failed to fetch PDF collections";
              variant := Some "destructive" |}]
  /\ loadingPdf (replay s trace) = false
  /\ pdfCollections (replay s trace) = pdfCollections s
  /\ List.filter (fun ev => match ev with
                            | SetPdfCollections _ => true
                            | _ => false
                            end) trace = [].
Proof. by repeat split. Qed.

(** C1. After a first fetch has stored one collection, a second fetch
    whose request is rejected shows the error toast and clears the loading
    flag, but the stored items are still that collection: the rejection
    handler of [fetchCollections] never writes the items, unlike the one
    of [fetchChatCollections], which stores the empty list. *)
Theorem fetchCollections_failure_keeps_previous_items :
  let report := {| collection_id := "c1"; file_names := Some ["report.pdf"];
                   document_count := 3%N; created_at := "2024-01-01" |} in
  let loaded := replay initial (trace_of (fetchCollections (Fulfilled [report]))) in
  let failed := trace_of (fetchCollections (Rejected (JStr "Network Error"))) in
  pdfCollections loaded = [report]
  /\ toasts failed
     = [Toast {| title := "Error";
                 description := "Failed to fetch PDF collections";
                 variant := Some "destructive" |}]
  /\ loadingPdf (replay loaded failed) = false
  /\ pdfCollections (replay loaded failed) = [report]
  /\ pdfCollections (replay loaded failed) <> []
  /\ chatCollections
       (replay (replay initial
                  (trace_of (fetchChatCollections
                               (Fulfilled (JArr [JStr "chat"])))))
               (trace_of (fetchChatCollections
                            (Rejected (JStr "Network Error")))))
     = [].
Proof. by repeat split. Qed.

(** ** Chat list normalisation *)

(** C2. Whatever value the chat list request is fulfilled with, the
    stored items are: the value itself when it is an array; its
    [collections] when it is an object whose [collections] is an array;
    the empty list for any other shape, such as [null] or an unrelated
    object.  In none of these cases is a toast shown. *)
Theorem fetchChatCollections_normalizes :
  forall s,
    (forall items,
        chatCollections
          (replay s (trace_of (fetchChatCollections (Fulfilled (JArr items)))))
        = items)
    /\ (forall fields items,
          obj_get "collections" fields = JArr items ->
          chatCollections
            (replay s (trace_of (fetchChatCollections (Fulfilled (JObj fields)))))
          = items)
    /\ (forall data,
          as_array data = None ->
          (forall fields,
              data = JObj fields ->
              as_array (obj_get "collections" fields) = None) ->
          chatCollections
            (replay s (trace_of (fetchChatCollections (Fulfilled data))))
          = [])
    /\ (forall data,
          chatCollections
            (replay s (trace_of (fetchChatCollections (Fulfilled data))))
          = chat_items_spec data
          /\ toasts (trace_of (fetchChatCollections (Fulfilled data))) = []
          /\ (fetchChatCollections (Fulfilled data)).2 = Normal tt).
Proof.
  intros s.
  split; [intros items; by rewrite fetchChatCollections_fulfilled|].
  split.
  { intros fields items Hc. rewrite fetchChatCollections_fulfilled.
    cbn. by rewrite Hc. }
  split.
  { intros data Harr Hobj. rewrite fetchChatCollections_fulfilled.
    change (chat_items_spec data = []).
    destruct data as [| |b|q|str|arr|fields]; try reflexivity;
      [discriminate|].
    specialize (Hobj fields eq_refl). cbn.
    by destruct (obj_get "collections" fields). }
  intros data. by rewrite fetchChatCollections_fulfilled.
Qed.

Lemma fetchChatCollections_normalizes_witness :
  chatCollections
    (replay initial
       (trace_of (fetchChatCollections
                    (Fulfilled (JObj [("collections", JArr [JStr "a"; JStr "b"]);
                                      ("count", JNum 2)])))))
  = [JStr "a"; JStr "b"]
  /\ chatCollections
       (replay initial
          (trace_of (fetchChatCollections
                       (Fulfilled (JObj [("detail", JStr "unrelated")])))))
     = [].
Proof.
  destruct (fetchChatCollections_normalizes initial) as [_ [Henv [Hother _]]].
  split.
  - exact (Henv [("collections", JArr [JStr "a"; JStr "b"]); ("count", JNum 2)]
                [JStr "a"; JStr "b"] eq_refl).
  - apply (Hother (JObj [("detail", JStr "unrelated")]) eq_refl).
    intros fields Heq. injection Heq as <-. reflexivity.
Defined.

(** ** Mutation coordinator *)

(** C5. A successful delete shows the success toast and sends the list
    request of its kind; once that reload is fulfilled the items are the
    sequence it returned, unfiltered (a collection with the deleted id
    stays if the server still lists it).  A failed delete shows the failure
    toast, sends nothing further and changes no cell. *)
Theorem delete_reloads_without_filtering :
  forall s collectionId ack,
    (forall items,
        let trace :=
          trace_of (deleteCollection collectionId (Fulfilled ack)
                      (Fulfilled items)) in
        pdfCollections (replay s trace) = items
        /\ toasts trace
           = [Toast {| title := "Collection Deleted";
                       description := "Collection deleted successfully";
                       variant := None |}]
        /\ requests trace
           = [Issue (PdfCollectionDelete collectionId); Issue PdfCollectionsGet])
    /\ (forall e reload,
          let trace :=
            trace_of (deleteCollection collectionId (Rejected e) reload) in
          replay s trace = s
          /\ toasts trace
             = [Toast {| title := "Delete Failed";
                         description := "Failed to delete collection";
                         variant := Some "destructive" |}]
          /\ requests trace = [Issue (PdfCollectionDelete collectionId)])
    /\ (forall data,
          let trace :=
            trace_of (deleteChatCollection collectionId (Fulfilled ack)
                        (Fulfilled data)) in
          chatCollections (replay s trace) = chat_items_spec data
          /\ toasts trace
             = [Toast {| title := "Chat Collection Deleted";
                         description := "Chat collection deleted successfully";
                         variant := None |}]
          /\ requests trace
             = [Issue (ChatCollectionDelete collectionId);
                Issue ChatCollectionsGet])
    /\ (forall items,
          chatCollections
            (replay s (trace_of (deleteChatCollection collectionId
                                   (Fulfilled ack) (Fulfilled (JArr items)))))
          = items)
    /\ (forall e reload,
          let trace :=
            trace_of (deleteChatCollection collectionId (Rejected e) reload) in
          replay s trace = s
          /\ toasts trace
             = [Toast {| title := "Delete Failed";
                         description := "Failed to delete chat collection";
                         variant := Some "destructive" |}]
          /\ requests trace = [Issue (ChatCollectionDelete collectionId)]).
Proof.
  intros s collectionId ack.
  assert (Hchat : forall data,
             deleteChatCollection collectionId (Fulfilled ack) (Fulfilled data)
             = ([Issue (ChatCollectionDelete collectionId);
                 Toast {| title := "Chat Collection Deleted";
                          description := "Chat collection deleted successfully";
                          variant := None |};
                 SetLoadingChat true; Issue ChatCollectionsGet;
                 SetChatCollections (chat_items_spec data);
                 SetLoadingChat false], Normal tt)).
  { intros data. unfold deleteChatCollection.
    rewrite fetchChatCollections_settle_fulfilled. reflexivity. }
  split; [by repeat split|].
  split; [by repeat split|].
  split; [intros data; rewrite Hchat; by repeat split|].
  split; [intros items; by rewrite Hchat|].
  by repeat split.
Qed.

(** Inside the safe range a count is printed as its decimal numeral. *)
Lemma number_text_safe (other_text : Z -> string) (n : Z) :
  (Z.abs n <= max_safe_integer)%Z -> number_text other_text n = pretty n.
Proof.
  intros Hsafe. unfold number_text.
  apply Z.leb_le in Hsafe. by rewrite Hsafe.
Qed.

(** C7. [handlePdfUpload] does nothing for an absent or empty selection.
    For a non-empty one it first sets [uploading], then sends every
    selected file in a single upload request.  When the upload is
    fulfilled it shows a toast with the file count the server returned
    (its decimal numeral for every count in the safe-integer range) and
    starts the documents fetch; when it is rejected it shows the failure
    toast and sends no further request.  On both paths [uploading] ends
    [false]. *)
Theorem handlePdfUpload_spec :
  (forall other_text upload reload,
      handlePdfUpload other_text None upload reload = ([], Normal tt)
      /\ handlePdfUpload other_text (Some []) upload reload = ([], Normal tt))
  /\ (forall other_text file files upload reload,
        exists rest,
          trace_of (handlePdfUpload other_text (Some (file :: files))
                      upload reload)
          = SetUploading true
              :: Issue (PdfUploadStore (pdf_form (file :: files))) :: rest
          /\ List.filter is_upload rest = []
          /\ map snd (pdf_form (file :: files)) = map FormFile (file :: files)
          /\ map fst (pdf_form (file :: files))
             = map (fun _ => "files") (file :: files))
  /\ (forall s other_text file files count reload,
        let trace :=
          trace_of (handlePdfUpload other_text (Some (file :: files))
                      (Fulfilled {| file_count := count |}) reload) in
        (exists later,
            trace
            = [SetUploading true;
               Issue (PdfUploadStore (pdf_form (file :: files)));
               Toast {| title := "Upload Successful";
                        description :=
                          number_text other_text count
                          +:+ " PDF(s) uploaded successfully";
                        variant := None |};
               SetLoadingPdf true; Issue PdfCollectionsGet;
               SetUploading false] ++ later
            /\ later = trace_of (fetchCollections_settle reload))
        /\ uploading (replay s trace) = false)
  /\ (forall other_text file files count reload,
        (Z.abs count <= max_safe_integer)%Z ->
        trace_of (handlePdfUpload other_text (Some (file :: files))
                    (Fulfilled {| file_count := count |}) reload)
        = [SetUploading true;
           Issue (PdfUploadStore (pdf_form (file :: files)));
           Toast {| title := "Upload Successful";
                    description :=
                      pretty count +:+ " PDF(s) uploaded successfully";
                    variant := None |};
           SetLoadingPdf true; Issue PdfCollectionsGet;
           SetUploading false]
          ++ trace_of (fetchCollections_settle reload))
  /\ (forall s other_text file files e reload,
        let trace :=
          trace_of (handlePdfUpload other_text (Some (file :: files))
                      (Rejected e) reload) in
        toasts trace
        = [Toast {| title := "Upload Failed";
                    description := "Failed to upload PDF files";
                    variant := Some "destructive" |}]
        /\ requests trace
           = [Issue (PdfUploadStore (pdf_form (file :: files)))]
        /\ replay s trace
           = {| activeTab := activeTab s;
                pdfCollections := pdfCollections s;
                chatCollections := chatCollections s;
                dbTables := dbTables s;
                uploading := false;
                loadingPdf := loadingPdf s;
                loadingChat := loadingChat s;
                loadingDb := loadingDb s;
                expandedTables := expandedTables s |}).
Proof.
  split; [by split|].
  split.
  { intros other_text file files [[count]|e] [items|e'];
      (eexists; split; [reflexivity|]); (split; [reflexivity|]);
      unfold pdf_form; rewrite !map_map; by split. }
  split.
  { intros s other_text file files count [items|e];
      (split; [eexists; by split|]); reflexivity. }
  split; [|by repeat split].
  intros other_text file files count reload Hsafe.
  rewrite <- (number_text_safe other_text count Hsafe).
  by destruct reload.
Qed.

Lemma handlePdfUpload_spec_witness :
  In (Toast {| title := "Upload Successful";
               description := "3 PDF(s) uploaded successfully";
               variant := None |})
     (trace_of (handlePdfUpload (fun _ => "")
                  (Some [{| file_name := "a.pdf"; file_size := 10%N |};
                         {| file_name := "b.pdf"; file_size := 20%N |};
                         {| file_name := "c.pdf"; file_size := 30%N |}])
                  (Fulfilled {| file_count := 3 |})
                  (Fulfilled []))).
Proof.
  destruct handlePdfUpload_spec as (_ & _ & _ & Hsafe & _).
  rewrite (Hsafe (fun _ => "")
                 {| file_name := "a.pdf"; file_size := 10%N |}
                 [{| file_name := "b.pdf"; file_size := 20%N |};
                  {| file_name := "c.pdf"; file_size := 30%N |}]
                 3%Z (Fulfilled []) ltac:(by vm_compute)).
  cbn. tauto.
Defined.

(** * Further properties of the controller *)

Section ControllerFacts.
Implicit Types (s : State) (env : Env) (e : JsVal).

Lemma fetchChatCollections_settle_rejected e :
  fetchChatCollections_settle (Rejected e)
  = ([ConsoleError "Failed to fetch chat collections:" e;
      SetChatCollections [];
      Toast {| title := "Error";
               description := "Failed to fetch chat collections";
               variant := Some "destructive" |};
      SetLoadingChat false], Normal tt).
Proof. reflexivity. Qed.

(** Every way the chat list request can settle, as one equation. *)
Lemma fetchChatCollections_settle_cases (resp : Settled JsVal) :
  fetchChatCollections_settle resp
  = (match resp with
     | Fulfilled data => [SetChatCollections (chat_items_spec data)]
     | Rejected e =>
         [ConsoleError "Failed to fetch chat collections:" e;
          SetChatCollections [];
          Toast {| title := "Error";
                   description := "Failed to fetch chat collections";
                   variant := Some "destructive" |}]
     end ++ [SetLoadingChat false], Normal tt).
Proof.
  destruct resp as [data|e];
    [apply fetchChatCollections_settle_fulfilled | reflexivity].
Qed.

(** Every way the table fetch can end, as a trace. *)
Lemma fetchDbTables_cases env (r : JsonFetch) (details : nat -> JsonFetch) :
  (exists fields x items,
      r = Body (JObj fields)
      /\ obj_get "tables" fields = JArr (x :: items)
      /\ fetchDbTables env r details
         = (SetLoadingDb true :: Issue (FetchDatabaseTables (apiUrl env))
              :: detail_requests env (x :: items)
              ++ [SetDbTables
                    (imap (fun i table => detail_record table (details i))
                          (x :: items));
                  SetLoadingDb false], Normal tt))
  \/ fetchDbTables env r details
     = ([SetLoadingDb true; Issue (FetchDatabaseTables (apiUrl env));
         SetDbTables []; SetLoadingDb false], Normal tt)
  \/ (exists err,
        fetchDbTables env r details
        = ([SetLoadingDb true; Issue (FetchDatabaseTables (apiUrl env));
            ConsoleError "Failed to fetch database tables:" err;
            SetLoadingDb false], Normal tt)).
Proof.
  destruct r as [e|e|data];
    try (right; right; exists e; reflexivity).
  rewrite fetchDbTables_body.
  destruct (on_tables_cases env details data)
    as [(fields & x & items & -> & Ht & ->) | [-> | [err ->]]].
  - left. exists fields, x, items. split; [reflexivity|]. split; [exact Ht|].
    by rewrite <- app_assoc.
  - right; left; reflexivity.
  - right; right; exists err; reflexivity.
Qed.

End ControllerFacts.

(** X1. No handler lets an exception or a rejection escape: whatever the
    requests answer, each handler runs to its end. *)
Theorem handlers_complete_normally :
  (forall resp, (fetchCollections resp).2 = Normal tt)
  /\ (forall resp, (fetchChatCollections resp).2 = Normal tt)
  /\ (forall env list_resp details,
        (fetchDbTables env list_resp details).2 = Normal tt)
  /\ (forall other_text files upload reload,
        (handlePdfUpload other_text files upload reload).2 = Normal tt)
  /\ (forall other_text file platform upload reload,
        (handleChatUpload other_text file platform upload reload).2
        = Normal tt)
  /\ (forall collectionId deleted reload,
        (deleteCollection collectionId deleted reload).2 = Normal tt)
  /\ (forall collectionId deleted reload,
        (deleteChatCollection collectionId deleted reload).2 = Normal tt).
Proof.
  split; [by intros [data|e]|].
  split.
  { intros resp. unfold fetchChatCollections.
    rewrite fetchChatCollections_settle_cases. reflexivity. }
  split.
  { intros env r details.
    destruct (fetchDbTables_cases env r details)
      as [(fields & x & items & _ & _ & ->) | [-> | [err ->]]]; reflexivity. }
  split.
  { intros other_text [[|file files]|] [data|e] [items|e']; reflexivity. }
  split.
  { intros other_text file platform [data|e] reload; unfold handleChatUpload;
      rewrite ?fetchChatCollections_settle_cases; reflexivity. }
  split.
  { intros collectionId [ack|e] [items|e']; reflexivity. }
  intros collectionId [ack|e] reload; unfold deleteChatCollection;
    rewrite ?fetchChatCollections_settle_cases; reflexivity.
Qed.

(** X2. The three stores are independent: a list fetch writes the items
    and the loading flag of its own kind and no other cell, whatever the
    response is. *)
Theorem list_fetch_writes_own_cells_only :
  (forall s resp,
      let s' := replay s (trace_of (fetchCollections resp)) in
      s' = {| activeTab := activeTab s;
              pdfCollections := pdfCollections s';
              chatCollections := chatCollections s;
              dbTables := dbTables s;
              uploading := uploading s;
              loadingPdf := false;
              loadingChat := loadingChat s;
              loadingDb := loadingDb s;
              expandedTables := expandedTables s |})
  /\ (forall s resp,
        let s' := replay s (trace_of (fetchChatCollections resp)) in
        s' = {| activeTab := activeTab s;
                pdfCollections := pdfCollections s;
                chatCollections := chatCollections s';
                dbTables := dbTables s;
                uploading := uploading s;
                loadingPdf := loadingPdf s;
                loadingChat := false;
                loadingDb := loadingDb s;
                expandedTables := expandedTables s |})
  /\ (forall s env list_resp details,
        let s' := replay s (trace_of (fetchDbTables env list_resp details)) in
        s' = {| activeTab := activeTab s;
                pdfCollections := pdfCollections s;
                chatCollections := chatCollections s;
                dbTables := dbTables s';
                uploading := uploading s;
                loadingPdf := loadingPdf s;
                loadingChat := loadingChat s;
                loadingDb := false;
                expandedTables := expandedTables s |}).
Proof.
  split; [by intros s [data|e]|].
  split.
  { intros s resp. unfold fetchChatCollections.
    rewrite fetchChatCollections_settle_cases. by destruct resp. }
  intros s env r details.
  destruct (fetchDbTables_cases env r details)
    as [(fields & x & items & _ & _ & ->) | [-> | [err ->]]];
    try reflexivity.
  unfold trace_of; cbn [fst].
  change (?a :: ?b :: ?l ++ ?c) with ([a; b] ++ l ++ c).
  rewrite !replay_app, replay_detail_requests. reflexivity.
Qed.

(** X3. Two overlapping documents fetches (both requests sent before
    either settles): the loading flag is cleared when the first one
    settles although the second is still open, and the items at the end
    are those of the response that settled last; a late rejection keeps
    what the earlier response stored. *)
Theorem overlapping_document_fetches :
  forall s first second,
    let opened := trace_of fetchCollections_start
                    ++ trace_of fetchCollections_start in
    let after_first := opened ++ trace_of (fetchCollections_settle first) in
    let after_second :=
      after_first ++ trace_of (fetchCollections_settle second) in
    loadingPdf (replay s opened) = true
    /\ loadingPdf (replay s after_first) = false
    /\ requests after_first = [Issue PdfCollectionsGet; Issue PdfCollectionsGet]
    /\ pdfCollections (replay s after_second)
       = match second, first with
         | Fulfilled late, _ => late
         | Rejected _, Fulfilled early => early
         | Rejected _, Rejected _ => pdfCollections s
         end.
Proof. intros s [early|e1] [late|e2]; by repeat split. Qed.

(** X4. For the chat list the response that settles last decides alone:
    its normalised items when it is fulfilled, the empty list when it is
    rejected, whatever the earlier response stored. *)
Theorem overlapping_chat_fetches :
  forall s first second,
    let opened := trace_of fetchChatCollections_start
                    ++ trace_of fetchChatCollections_start in
    let after_first := opened ++ trace_of (fetchChatCollections_settle first) in
    let after_second :=
      after_first ++ trace_of (fetchChatCollections_settle second) in
    loadingChat (replay s after_first) = false
    /\ chatCollections (replay s after_second)
       = match second with
         | Fulfilled late => chat_items_spec late
         | Rejected _ => []
         end.
Proof.
  intros s first second.
  rewrite !fetchChatCollections_settle_cases.
  destruct first, second; by split.
Qed.

(** X5. A rejected chat list request discards what was stored: the items
    become the empty list and the loading flag is cleared, one error toast
    is shown, and no other cell changes. *)
Theorem fetchChatCollections_rejected_resets :
  forall s e,
    let trace := trace_of (fetchChatCollections (Rejected e)) in
    replay s trace
    = {| activeTab := activeTab s;
         pdfCollections := pdfCollections s;
         chatCollections := [];
         dbTables := dbTables s;
         uploading := uploading s;
         loadingPdf := loadingPdf s;
         loadingChat := false;
         loadingDb := loadingDb s;
         expandedTables := expandedTables s |}
    /\ toasts trace
       = [Toast {| title := "Error";
                   description := "Failed to fetch chat collections";
                   variant := Some "destructive" |}]
    /\ requests trace = [Issue ChatCollectionsGet].
Proof. by repeat split. Qed.

(** X6. When the parsed body has no usable table list ([tables] absent,
    [null], [false], [0], the empty string or the empty array) the tables
    store is emptied and no detail request is sent. *)
Theorem fetchDbTables_without_tables_clears :
  forall env s fields details,
    truthy (obj_get "tables" fields) = false
    \/ obj_get "tables" fields = JArr [] ->
    let trace := trace_of (fetchDbTables env (Body (JObj fields)) details) in
    trace = [SetLoadingDb true; Issue (FetchDatabaseTables (apiUrl env));
             SetDbTables []; SetLoadingDb false]
    /\ dbTables (replay s trace) = []
    /\ loadingDb (replay s trace) = false.
Proof.
  intros env s fields details Hcase trace.
  assert (Htrace : trace
                   = [SetLoadingDb true; Issue (FetchDatabaseTables (apiUrl env));
                      SetDbTables []; SetLoadingDb false]).
  { unfold trace. rewrite fetchDbTables_body. unfold on_tables.
    cbn [get lift mbind action_bind].
    destruct Hcase as [Hfalsy| ->]; [rewrite Hfalsy|]; reflexivity. }
  by rewrite Htrace.
Qed.

Lemma fetchDbTables_without_tables_clears_witness :
  dbTables
    (replay
       {| activeTab := "database"; pdfCollections := []; chatCollections := [];
          dbTables := [JObj [("name", JStr "users")]];
          uploading := false; loadingPdf := false; loadingChat := false;
          loadingDb := false; expandedTables := ∅ |}
       (trace_of (fetchDbTables
                    {| apiUrl := "http://localhost:8000";
                       coerced_gt0 := fun _ => false |}
                    (Body (JObj [("detail", JStr "Not Found")]))
                    (fun _ => NetworkError JNull))))
  = [].
Proof.
  apply (fetchDbTables_without_tables_clears
           {| apiUrl := "http://localhost:8000"; coerced_gt0 := fun _ => false |}
           {| activeTab := "database"; pdfCollections := [];
              chatCollections := [];
              dbTables := [JObj [("name", JStr "users")]];
              uploading := false; loadingPdf := false; loadingChat := false;
              loadingDb := false; expandedTables := ∅ |}
           [("detail", JStr "Not Found")]
           (fun _ => NetworkError JNull)).
  left. reflexivity.
Defined.

(** X7. A parsed body that makes the list handler throw, a [null] body
    or a [tables] that is a non-empty string, is treated like a failed
    request: the error goes to the console, no detail request is sent, no
    toast is shown and the stored tables stay. *)
Theorem fetchDbTables_malformed_body_keeps_tables :
  forall env s details,
    let kept := {| activeTab := activeTab s;
                   pdfCollections := pdfCollections s;
                   chatCollections := chatCollections s;
                   dbTables := dbTables s;
                   uploading := uploading s;
                   loadingPdf := loadingPdf s;
                   loadingChat := loadingChat s;
                   loadingDb := false;
                   expandedTables := expandedTables s |} in
    let failed data :=
      fetchDbTables env (Body data) details
      = ([SetLoadingDb true; Issue (FetchDatabaseTables (apiUrl env));
          ConsoleError "Failed to fetch database tables:" TypeError;
          SetLoadingDb false], Normal tt)
      /\ replay s (trace_of (fetchDbTables env (Body data) details)) = kept in
    failed JNull
    /\ failed JUndefined
    /\ (forall fields a rest,
          obj_get "tables" fields = JStr (String a rest) ->
          failed (JObj fields)).
Proof.
  intros env s details kept failed.
  split; [by split|]. split; [by split|].
  intros fields a rest Ht. unfold failed.
  assert (Hrun : fetchDbTables env (Body (JObj fields)) details
                 = ([SetLoadingDb true; Issue (FetchDatabaseTables (apiUrl env));
                     ConsoleError "Failed to fetch database tables:" TypeError;
                     SetLoadingDb false], Normal tt)).
  { rewrite fetchDbTables_body. unfold on_tables.
    cbn [get lift mbind action_bind]. rewrite Ht. reflexivity. }
  by rewrite Hrun.
Qed.

Lemma fetchDbTables_malformed_body_keeps_tables_witness :
  toasts
    (trace_of (fetchDbTables
                 {| apiUrl := "http://localhost:8000";
                    coerced_gt0 := fun _ => false |}
                 (Body (JObj [("tables", JStr "users,orders")]))
                 (fun _ => NetworkError JNull)))
  = [].
Proof.
  destruct (fetchDbTables_malformed_body_keeps_tables
              {| apiUrl := "http://localhost:8000";
                 coerced_gt0 := fun _ => false |}
              initial (fun _ => NetworkError JNull))
    as [_ [_ Hstr]].
  destruct (Hstr [("tables", JStr "users,orders")] "u"%char "sers,orders"
                 eq_refl) as [-> _].
  reflexivity.
Defined.

(** ** Per-table detail *)

Section DetailFacts.
Implicit Types (k : string) (v : JsVal) (fields : list (string * JsVal)).





End DetailFacts.





Section DetailRequestFacts.

Lemma filter_all {A} (p : A -> bool) (l : list A) :
  Forall (fun x => p x = true) l -> List.filter p l = l.
Proof.
  induction 1 as [|x l Hx _ IH]; [reflexivity|].
  cbn. by rewrite Hx, IH.
Qed.

(** The requests of a table fetch whose body lists a non-empty array. *)
Lemma fetchDbTables_requests (env : Env) (details : nat -> JsonFetch)
    (fields : list (string * JsVal)) (x : JsVal) (items : list JsVal) :
  obj_get "tables" fields = JArr (x :: items) ->
  requests (trace_of (fetchDbTables env (Body (JObj fields)) details))
  = Issue (FetchDatabaseTables (apiUrl env)) :: detail_requests env (x :: items).
Proof.
  intros Ht.
  rewrite fetchDbTables_body, (on_tables_nonempty env details fields x items Ht).
  unfold trace_of, requests. cbn [fst List.filter is_request].
  rewrite <- app_assoc, List.filter_app.
  rewrite (filter_all _ _ (detail_requests_are_requests env (x :: items))).
  cbn. by rewrite app_nil_r.
Qed.

Lemma detail_requests_length (env : Env) (l : list JsVal) :
  length (detail_requests env l) <= length l.
Proof.
  induction l as [|table l IH]; [cbn; lia|].
  cbn [detail_requests flat_map].
  change (flat_map _ l) with (detail_requests env l).
  rewrite length_app. cbn [length].
  destruct (get table "name"); cbn [length]; lia.
Qed.

Lemma detail_requests_named (env : Env) (l : list JsVal) :
  Forall (fun table =>
            table = JNull
            \/ exists tfields name,
                table = JObj tfields /\ obj_get "name" tfields = JStr name)
         l ->
  detail_requests env l
  = omap (fun table =>
            match table with
            | JObj tfields =>
                Some (Issue (FetchDatabaseTable (apiUrl env)
                               (obj_get "name" tfields)))
            | _ => None
            end) l.
Proof.
  induction 1 as [|table l Htable _ IH]; [reflexivity|].
  cbn [detail_requests flat_map omap list_omap].
  change (flat_map _ l) with (detail_requests env l).
  rewrite IH.
  destruct Htable as [-> | (tfields & name & -> & _)]; reflexivity.
Qed.

End DetailRequestFacts.

(** X10. The requests of a table fetch follow the list it received.  For
    a non-empty list whose entries are [null] or objects with a string
    [name], the fetch sends the list request and then one detail request
    per object, in list order, each carrying that table's name; a [null]
    entry sends nothing, and is stored as it is.  For any non-empty list
    the fetch sends at most one detail request per entry. *)
Theorem detail_requests_follow_the_list :
  forall env s fields x items details,
    obj_get "tables" fields = JArr (x :: items) ->
    let run := fetchDbTables env (Body (JObj fields)) details in
    length (requests (trace_of run)) <= 1 + length (x :: items)
    /\ (Forall (fun table =>
                  table = JNull
                  \/ exists tfields name,
                      table = JObj tfields
                      /\ obj_get "name" tfields = JStr name)
               (x :: items) ->
        requests (trace_of run)
        = Issue (FetchDatabaseTables (apiUrl env))
            :: omap (fun table =>
                       match table with
                       | JObj tfields =>
                           Some (Issue (FetchDatabaseTable (apiUrl env)
                                          (obj_get "name" tfields)))
                       | _ => None
                       end)
                    (x :: items))
    /\ (forall i,
          (x :: items) !! i = Some JNull ->
          dbTables (replay s (trace_of run)) !! i = Some JNull).
Proof.
  intros env s fields x items details Ht run.
  assert (Hreq := fetchDbTables_requests env details fields x items Ht).
  fold run in Hreq.
  split.
  { rewrite Hreq. cbn [length]. apply le_n_S.
    apply (detail_requests_length env (x :: items)). }
  split.
  { intros Hall. rewrite Hreq. f_equal.
    by apply detail_requests_named. }
  intros i Hi.
  unfold run.
  rewrite (fetchDbTables_detail_record_at env s fields x items details Ht i
             JNull Hi).
  reflexivity.
Qed.

Lemma detail_requests_follow_the_list_witness :
  requests
    (trace_of (fetchDbTables
                 {| apiUrl := "http://localhost:8000";
                    coerced_gt0 := fun _ => false |}
                 (Body (JObj [("tables",
                               JArr [JObj [("name", JStr "users")];
                                     JNull;
                                     JObj [("name", JStr "orders")]])]))
                 (fun _ => NetworkError JNull)))
  = [Issue (FetchDatabaseTables "http://localhost:8000");
     Issue (FetchDatabaseTable "http://localhost:8000" (JStr "users"));
     Issue (FetchDatabaseTable "http://localhost:8000" (JStr "orders"))].
Proof.
  destruct (detail_requests_follow_the_list
              {| apiUrl := "http://localhost:8000";
                 coerced_gt0 := fun _ => false |}
              initial
              [("tables", JArr [JObj [("name", JStr "users")]; JNull;
                                JObj [("name", JStr "orders")]])]
              (JObj [("name", JStr "users")])
              [JNull; JObj [("name", JStr "orders")]]
              (fun _ => NetworkError JNull) eq_refl) as (_ & Hreq & _).
  rewrite Hreq; [reflexivity|].
  constructor; [right; by eexists _, _|].
  constructor; [by left|].
  constructor; [right; by eexists _, _|].
  constructor.
Defined.

(** ** Chat upload and tab selection *)

(** X11. The chat file input uploads the first selected file only, always
    tagged "whatsapp", in one request; nothing happens without a file.
    [handleChatUpload] sets [uploading], and clears it on both paths; a
    fulfilled upload shows the message count (its decimal numeral for
    every count in the safe-integer range) and reloads the chat list; a
    rejected one shows the failure toast, sends nothing else and changes
    no other cell. *)
Theorem handleChatUpload_spec :
  (forall other_text upload reload,
      chat_input_change other_text None upload reload = ([], Normal tt)
      /\ chat_input_change other_text (Some []) upload reload
         = ([], Normal tt))
  /\ (forall other_text first others upload reload,
        exists rest,
          trace_of (chat_input_change other_text (Some (first :: others))
                      upload reload)
          = SetUploading true
              :: Issue (ChatUploadStore
                          [("file", FormFile first);
                           ("platform", FormText "whatsapp")])
              :: rest
          /\ List.filter (fun ev => match ev with
                                   | Issue (ChatUploadStore _) => true
                                   | _ => false
                                   end) rest = [])
  /\ (forall s other_text file platform count reload,
        let trace :=
          trace_of (handleChatUpload other_text file (Some platform)
                      (Fulfilled {| message_count := count |}) reload) in
        trace
        = [SetUploading true;
           Issue (ChatUploadStore
                    [("file", FormFile file);
                     ("platform", FormText (platform_name platform))]);
           Toast {| title := "Chat Upload Successful";
                    description :=
                      number_text other_text count +:+ " messages processed";
                    variant := None |};
           SetLoadingChat true; Issue ChatCollectionsGet;
           SetUploading false]
          ++ trace_of (fetchChatCollections_settle reload)
        /\ uploading (replay s trace) = false
        /\ loadingChat (replay s trace) = false
        /\ chatCollections (replay s trace)
           = match reload with
             | Fulfilled data => chat_items_spec data
             | Rejected _ => []
             end)
  /\ (forall other_text file platform count reload,
        (Z.abs count <= max_safe_integer)%Z ->
        In (Toast {| title := "Chat Upload Successful";
                     description := pretty count +:+ " messages processed";
                     variant := None |})
           (trace_of (handleChatUpload other_text file platform
                        (Fulfilled {| message_count := count |}) reload)))
  /\ (forall s other_text file platform e reload,
        let trace :=
          trace_of (handleChatUpload other_text file platform
                      (Rejected e) reload) in
        toasts trace
        = [Toast {| title := "Upload Failed";
                    description := "Failed to upload chat file";
                    variant := Some "destructive" |}]
        /\ length (requests trace) = 1
        /\ replay s trace
           = {| activeTab := activeTab s;
                pdfCollections := pdfCollections s;
                chatCollections := chatCollections s;
                dbTables := dbTables s;
                uploading := false;
                loadingPdf := loadingPdf s;
                loadingChat := loadingChat s;
                loadingDb := loadingDb s;
                expandedTables := expandedTables s |}).
Proof.
  split; [by split|].
  split.
  { intros other_text first others [data|e] reload;
      unfold chat_input_change, handleChatUpload;
      rewrite ?fetchChatCollections_settle_cases;
      [destruct reload|]; eexists; (split; [reflexivity|]); reflexivity. }
  split.
  { intros s other_text file platform count reload. unfold handleChatUpload.
    rewrite fetchChatCollections_settle_cases.
    destruct reload as [data|e]; by repeat split. }
  split; [|by repeat split].
  intros other_text file platform count reload Hsafe.
  rewrite <- (number_text_safe other_text count Hsafe).
  unfold handleChatUpload. rewrite fetchChatCollections_settle_cases.
  cbn. tauto.
Qed.

Lemma handleChatUpload_spec_witness :
  In (Toast {| title := "Chat Upload Successful";
               description := "128 messages processed";
               variant := None |})
     (trace_of (handleChatUpload (fun _ => "")
                  {| file_name := "chat.txt"; file_size := 2048%N |} None
                  (Fulfilled {| message_count := 128 |})
                  (Fulfilled (JArr [])))).
Proof.
  destruct handleChatUpload_spec as (_ & _ & _ & Hsafe & _).
  exact (Hsafe (fun _ => "")
               {| file_name := "chat.txt"; file_size := 2048%N |} None
               128%Z (Fulfilled (JArr [])) ltac:(by vm_compute)).
Defined.

Section TabFacts.

(** The three tab values the view offers. *)
Lemma activeTab_effect_known (env : Env) :
  activeTab_effect env "pdf" = fetchCollections_start
  /\ activeTab_effect env "chat" = fetchChatCollections_start
  /\ activeTab_effect env "database" = fetchDbTables_start env.
Proof. by repeat split. Qed.

Lemma activeTab_effect_unknown (env : Env) (tab : string) :
  tab <> "pdf" -> tab <> "chat" -> tab <> "database" ->
  activeTab_effect env tab = ([], Normal tt).
Proof.
  intros Hp Hc Hd. unfold activeTab_effect.
  apply String.eqb_neq in Hp, Hc, Hd. by rewrite Hp, Hc, Hd.
Qed.

End TabFacts.

(** X12. Selecting a tab: choosing the tab that is already active sends
    no request and leaves the state as it is; choosing another one of the
    three tabs records it and starts exactly the fetch of that kind (one
    request, that kind's loading flag raised, no items written yet); any
    other value is recorded without a fetch. *)
Theorem select_tab_fetches_on_change :
  forall env s,
    (requests (trace_of (select_tab env s (activeTab s))) = []
     /\ replay s (trace_of (select_tab env s (activeTab s))) = s)
    /\ (forall tab,
          tab <> activeTab s ->
          let trace := trace_of (select_tab env s tab) in
          activeTab (replay s trace) = tab
          /\ pdfCollections (replay s trace) = pdfCollections s
          /\ chatCollections (replay s trace) = chatCollections s
          /\ dbTables (replay s trace) = dbTables s
          /\ requests trace
             = (if String.eqb tab "pdf" then [Issue PdfCollectionsGet]
                else if String.eqb tab "chat" then [Issue ChatCollectionsGet]
                else if String.eqb tab "database"
                     then [Issue (FetchDatabaseTables (apiUrl env))]
                     else [])
          /\ loadingPdf (replay s trace)
             = (String.eqb tab "pdf" || loadingPdf s)
          /\ loadingChat (replay s trace)
             = (String.eqb tab "chat" || loadingChat s)
          /\ loadingDb (replay s trace)
             = (String.eqb tab "database" || loadingDb s)).
Proof.
  intros env s. split.
  { unfold select_tab, effect_runs.
    rewrite String.eqb_refl. cbn. split; [reflexivity|]. by destruct s. }
  intros tab Hne trace. unfold trace, select_tab, effect_runs.
  apply not_eq_sym, String.eqb_neq in Hne. rewrite Hne. cbn [negb].
  unfold activeTab_effect.
  destruct (String.eqb tab "pdf") eqn:Hp.
  { apply String.eqb_eq in Hp as ->. by repeat split. }
  destruct (String.eqb tab "chat") eqn:Hc.
  { apply String.eqb_eq in Hc as ->. by repeat split. }
  destruct (String.eqb tab "database") eqn:Hd; [|by repeat split].
  apply String.eqb_eq in Hd as ->. by repeat split.
Qed.

Lemma select_tab_fetches_on_change_witness :
  requests
    (trace_of (select_tab {| apiUrl := "http://localhost:8000";
                             coerced_gt0 := fun _ => false |}
                          initial "chat"))
  = [Issue ChatCollectionsGet].
Proof.
  destruct (select_tab_fetches_on_change
              {| apiUrl := "http://localhost:8000";
                 coerced_gt0 := fun _ => false |} initial) as [_ Hother].
  destruct (Hother "chat" ltac:(discriminate)) as (_ & _ & _ & _ & Hreq & _).
  exact Hreq.
Defined.

(** ** The view *)

(** X13. The file list of a collection card: it is hidden exactly when
    [file_names] is missing or empty (then the title is the placeholder);
    otherwise it shows the first one or two names, the "+n more" count is
    there exactly when more than two files exist and then counts all the
    names not shown, and the title is derived from the first name shown. *)
Theorem file_preview_bounds :
  forall c,
    (file_preview c = None <->
     file_names c = None \/ file_names c = Some [])
    /\ (file_preview c = None -> getCollectionTitle c = "Untitled Collection")
    /\ (forall shown more,
          file_preview c = Some (shown, more) ->
          exists first names,
            file_names c = Some names
            /\ shown = take 2 names
            /\ head shown = Some first
            /\ getCollectionTitle c
               = map_chars separator_to_space (strip_pdf_suffix first)
            /\ 1 <= length shown <= 2
            /\ length shown + default 0 more = length names
            /\ (more = None <-> length names <= 2)).
Proof.
  intros [id [names|] n t]; unfold file_preview; cbn [file_names].
  2: { split; [split; [tauto | done]|]. split; [done | discriminate]. }
  destruct names as [|first names].
  { split; [split; [tauto | done]|]. split; [done | discriminate]. }
  cbn [length Nat.ltb Nat.leb].
  split.
  { split; [discriminate|]. intros [?|?]; discriminate. }
  split; [discriminate|].
  intros shown more Heq. injection Heq as <- <-.
  exists first, (first :: names).
  split; [reflexivity|]. split; [reflexivity|]. split; [reflexivity|].
  split.
  { pose proof getCollectionTitle_title_spec as H.
    by rewrite H. }
  destruct names as [|second [|third names]]; cbn; repeat split; try lia;
    try discriminate.
Qed.

Lemma file_preview_bounds_witness :
  file_preview {| collection_id := "c1";
                  file_names := Some ["a.pdf"; "b.pdf"; "c.pdf"; "d.pdf"];
                  document_count := 9%N; created_at := "2024-01-01" |}
  = Some (["a.pdf"; "b.pdf"], Some 2)
  /\ length ["a.pdf"; "b.pdf"] + default 0 (Some 2) = 4.
Proof.
  destruct (file_preview_bounds
              {| collection_id := "c1";
                 file_names := Some ["a.pdf"; "b.pdf"; "c.pdf"; "d.pdf"];
                 document_count := 9%N; created_at := "2024-01-01" |})
    as [_ [_ Hshown]].
  destruct (Hshown ["a.pdf"; "b.pdf"] (Some 2) eq_refl)
    as (first & names & Hnames & _ & _ & _ & _ & Hsum & _).
  injection Hnames as <-.
  split; [reflexivity | exact Hsum].
Defined.

Section PaneFacts.

Lemma pdf_pane_spinner (s : State) : pdf_pane s = Spinner -> loadingPdf s = true.
Proof.
  unfold pdf_pane. destruct (loadingPdf s); [done|].
  destruct (Nat.eqb _ _); discriminate.
Qed.

Lemma chat_pane_spinner (s : State) :
  chat_pane s = Shown Spinner -> loadingChat s = true.
Proof.
  unfold chat_pane. destruct (loadingChat s); [done|].
  destruct (Nat.eqb _ _); [discriminate|].
  destruct (render_all _ _); discriminate.
Qed.

(** One crashing row crashes the list. *)
Lemma render_all_crashed {A B} (f : A -> Render B) (l : list A) (x : A) :
  x ∈ l -> f x = Crashed -> render_all f l = Crashed.
Proof.
  intros Hin Hx. induction l as [|y l IH]; [by apply elem_of_nil in Hin|].
  cbn [render_all]. apply elem_of_cons in Hin as [<- | Hin].
  - by rewrite Hx.
  - destruct (f y); [|reflexivity]. cbn. by rewrite IH.
Qed.

(** Rows that all render give the list of their results. *)
Lemma render_all_shown {A B} (f : A -> Render B) (g : A -> B) (l : list A) :
  Forall (fun x => f x = Shown (g x)) l -> render_all f l = Shown (map g l).
Proof.
  induction 1 as [|x l Hx _ IH]; [reflexivity|].
  cbn [render_all map]. by rewrite Hx, IH.
Qed.

(** The card of an object with a string id. *)
Lemma chat_card_object (fields : list (string * JsVal)) (id : string) :
  obj_get "collection_id" fields = JStr id ->
  chat_card (JObj fields)
  = Shown {| chat_key := JStr id;
             chat_file_name := obj_get "file_name" fields;
             chat_message_count := obj_get "message_count" fields;
             chat_platform := obj_get "platform" fields |}.
Proof. intros Hid. unfold chat_card. cbn. by rewrite Hid. Qed.

End PaneFacts.

(** X14. The documents and chats panes over one fetch.  The spinner is
    shown while the request is open and never once it has settled.  A
    fulfilled fetch with no items shows the empty message; with items it
    lists them (for chats: one card per object with a string id, holding
    its four fields), under the count banner exactly when there are more
    than fifty.  A chat list holding [null] makes the pane crash.  After a
    rejected documents fetch the pane shows what was stored before, after
    a rejected chats fetch the empty message. *)
Theorem list_panes_over_a_fetch :
  forall s,
    pdf_pane (replay s (trace_of fetchCollections_start)) = Spinner
    /\ chat_pane (replay s (trace_of fetchChatCollections_start))
       = Shown Spinner
    /\ (forall resp,
          pdf_pane (replay s (trace_of (fetchCollections resp))) <> Spinner)
    /\ (forall resp,
          chat_pane (replay s (trace_of (fetchChatCollections resp)))
          <> Shown Spinner)
    /\ pdf_pane (replay s (trace_of (fetchCollections (Fulfilled []))))
       = EmptyMessage "No PDF collections yet"
    /\ (forall data,
          chat_items_spec data = [] ->
          chat_pane (replay s (trace_of (fetchChatCollections
                                           (Fulfilled data))))
          = Shown (EmptyMessage "No chat collections yet"))
    /\ (forall item items,
          pdf_pane (replay s (trace_of (fetchCollections
                                          (Fulfilled (item :: items)))))
          = Listing
              (if Nat.ltb 50 (length (item :: items))
               then Some [Text "Showing "; Count (length (item :: items));
                          Text " collections"]
               else None)
              (item :: items))
    /\ (forall entry entries,
          Forall (fun fields =>
                    exists id, obj_get "collection_id" fields = JStr id)
                 (entry :: entries) ->
          chat_pane (replay s (trace_of (fetchChatCollections
                                           (Fulfilled
                                              (JArr (map JObj
                                                       (entry :: entries)))))))
          = Shown
              (Listing
                 (if Nat.ltb 50 (length (entry :: entries))
                  then Some [Text "Showing ";
                             Count (length (entry :: entries));
                             Text " collections - Scroll to view all"]
                  else None)
                 (map (fun fields =>
                         {| chat_key := obj_get "collection_id" fields;
                            chat_file_name := obj_get "file_name" fields;
                            chat_message_count :=
                              obj_get "message_count" fields;
                            chat_platform := obj_get "platform" fields |})
                      (entry :: entries))))
    /\ (forall items,
          JNull ∈ items ->
          chat_pane (replay s (trace_of (fetchChatCollections
                                           (Fulfilled (JArr items)))))
          = Crashed)
    /\ (forall e,
          pdf_pane (replay s (trace_of (fetchCollections (Rejected e))))
          = match pdfCollections s with
            | [] => EmptyMessage "No PDF collections yet"
            | stale =>
                Listing (if Nat.ltb 50 (length stale)
                         then Some [Text "Showing "; Count (length stale);
                                    Text " collections"]
                         else None) stale
            end)
    /\ (forall e,
          chat_pane (replay s (trace_of (fetchChatCollections (Rejected e))))
          = Shown (EmptyMessage "No chat collections yet")).
Proof.
  intros s.
  assert (Hchat : forall data,
             replay s (trace_of (fetchChatCollections (Fulfilled data)))
             = {| activeTab := activeTab s;
                  pdfCollections := pdfCollections s;
                  chatCollections := chat_items_spec data;
                  dbTables := dbTables s;
                  uploading := uploading s;
                  loadingPdf := loadingPdf s;
                  loadingChat := false;
                  loadingDb := loadingDb s;
                  expandedTables := expandedTables s |}).
  { intros data. by rewrite fetchChatCollections_fulfilled. }
  split; [reflexivity|]. split; [reflexivity|].
  split.
  { intros resp Hspin. apply pdf_pane_spinner in Hspin. by destruct resp. }
  split.
  { intros resp Hspin. apply chat_pane_spinner in Hspin.
    unfold fetchChatCollections in Hspin.
    rewrite fetchChatCollections_settle_cases in Hspin.
    by destruct resp. }
  split; [reflexivity|].
  split.
  { intros data Hempty. rewrite Hchat. unfold chat_pane.
    cbn [loadingChat chatCollections]. by rewrite Hempty. }
  split; [reflexivity|].
  split.
  { intros entry entries Hids. rewrite Hchat. unfold chat_pane.
    cbn [loadingChat chatCollections chat_items_spec].
    rewrite length_map.
    change (length (entry :: entries) =? 0)%nat with false. cbn match.
    rewrite (render_all_shown chat_card
               (fun v => match v with
                         | JObj fields =>
                             {| chat_key := obj_get "collection_id" fields;
                                chat_file_name := obj_get "file_name" fields;
                                chat_message_count :=
                                  obj_get "message_count" fields;
                                chat_platform := obj_get "platform" fields |}
                         | _ => {| chat_key := v; chat_file_name := v;
                                   chat_message_count := v;
                                   chat_platform := v |}
                         end)).
    - cbn [mbind render_bind]. by rewrite map_map.
    - apply Forall_map. eapply Forall_impl; [exact Hids|].
      intros fields [id Hid]. cbn beta.
      rewrite (chat_card_object fields id Hid). by rewrite Hid. }
  split.
  { intros items Hnull. rewrite Hchat. unfold chat_pane.
    cbn [loadingChat chatCollections chat_items_spec].
    destruct items as [|x items]; [by apply elem_of_nil in Hnull|].
    change (length (x :: items) =? 0)%nat with false. cbn match.
    by rewrite (render_all_crashed chat_card (x :: items) JNull Hnull). }
  split; [|reflexivity].
  intros e. unfold pdf_pane. cbn.
  by destruct (pdfCollections s).
Qed.

Lemma list_panes_over_a_fetch_witness :
  chat_pane
    (replay initial
       (trace_of (fetchChatCollections
                    (Fulfilled
                       (JArr (map JObj
                                [[("collection_id", JStr "c1");
                                  ("file_name", JStr "family.txt");
                                  ("message_count", JNum 42);
                                  ("platform", JStr "whatsapp")]]))))))
  = Shown (Listing None
             [{| chat_key := JStr "c1";
                 chat_file_name := JStr "family.txt";
                 chat_message_count := JNum 42;
                 chat_platform := JStr "whatsapp" |}])
  /\ chat_pane
       (replay initial
          (trace_of (fetchChatCollections
                       (Fulfilled (JArr [JObj []; JNull])))))
     = Crashed.
Proof.
  destruct (list_panes_over_a_fetch initial)
    as (_ & _ & _ & _ & _ & _ & _ & Hcards & Hnull & _).
  split.
  - rewrite (Hcards [("collection_id", JStr "c1");
                     ("file_name", JStr "family.txt");
                     ("message_count", JNum 42);
                     ("platform", JStr "whatsapp")] []).
    + reflexivity.
    + constructor; [by eexists | constructor].
  - apply Hnull. apply list_elem_of_further, list_elem_of_here.
Defined.

Section RowModelFacts.
Implicit Types (env : Env) (S : gset string).

(** The earlier row functions are the general ones at a string name. *)
Lemma row_icon_when_string env S (name : string) (columns : JsVal) :
  row_icon env S name columns
  = row_icon_when env (bool_decide (name ∈ S)) columns.
Proof. reflexivity. Qed.

Lemma column_list_when_string env S (name : string) (columns : JsVal) :
  column_list env S name columns
  = column_list_when env (bool_decide (name ∈ S)) columns.
Proof. reflexivity. Qed.




End RowModelFacts.



(** ** Table rows *)

Section RowFacts.
Implicit Types (S : gset string) (name : string) (env : Env).

Lemma toggle_flips S name :
  bool_decide (name ∈ toggle name S) = negb (bool_decide (name ∈ S)).
Proof.
  destruct (decide (name ∈ S)) as [Hin|Hout].
  - rewrite (bool_decide_eq_true_2 _ Hin). apply bool_decide_eq_false_2.
    rewrite elem_of_toggle. tauto.
  - rewrite (bool_decide_eq_false_2 _ Hout). apply bool_decide_eq_true_2.
    rewrite elem_of_toggle. tauto.
Qed.

Lemma toggle_other S name other :
  other <> name ->
  bool_decide (name ∈ toggle other S) = bool_decide (name ∈ S).
Proof.
  intros Hne. apply bool_decide_ext. rewrite elem_of_toggle.
  assert (name <> other) by congruence. tauto.
Qed.

Lemma has_columns_array env (columns : list JsVal) :
  has_columns env (JArr columns)
  = Normal (match columns with [] => false | _ => true end).
Proof. destruct columns; reflexivity. Qed.

Lemma column_row_object (fields : list (string * JsVal)) :
  column_row (JObj fields)
  = Normal {| col_name := obj_get "name" fields;
              col_type := obj_get "type" fields;
              not_null_badge := is_false (obj_get "nullable" fields);
              pk_badge := truthy (obj_get "primary_key" fields) |}.
Proof. reflexivity. Qed.

Lemma map_rows_objects (columns : list (list (string * JsVal))) :
  map_rows (map JObj columns)
  = Normal (map (fun fields =>
                   {| col_name := obj_get "name" fields;
                      col_type := obj_get "type" fields;
                      not_null_badge := is_false (obj_get "nullable" fields);
                      pk_badge := truthy (obj_get "primary_key" fields) |})
                columns).
Proof.
  induction columns as [|fields columns IH]; [reflexivity|].
  cbn [map map_rows]. rewrite column_row_object, IH. reflexivity.
Qed.

End RowFacts.

(** X16. Expanding a table row.  A table without columns ([columns]
    missing, as after a failed detail request, or an empty array) shows the
    database icon and never a column list, expanded or not.  For a table
    with a non-empty [columns] array the chevron points down exactly when
    the table is in the expanded set; a click on the row flips it, and a
    click on another row changes neither its icon nor its column list.  A
    collapsed row renders no column list whatever [columns] holds. *)
Theorem row_expansion :
  forall env S name,
    (forall columns,
        columns = JUndefined \/ columns = JArr [] ->
        row_icon env S name columns = Normal DatabaseIcon
        /\ column_list env S name columns = Normal None
        /\ column_list env (toggle name S) name columns = Normal None)
    /\ (forall column columns,
          row_icon env S name (JArr (column :: columns))
          = Normal (if bool_decide (name ∈ S) then ChevronDown else ChevronRight)
          /\ row_icon env (toggle name S) name (JArr (column :: columns))
             = Normal (if bool_decide (name ∈ S)
                       then ChevronRight else ChevronDown))
    /\ (forall other columns,
          other <> name ->
          row_icon env (toggle other S) name columns
          = row_icon env S name columns
          /\ column_list env (toggle other S) name columns
             = column_list env S name columns)
    /\ (forall columns,
          name ∉ S -> column_list env S name columns = Normal None).
Proof.
  intros env S name. split.
  { intros columns [-> | ->]; unfold row_icon, column_list;
      repeat case_bool_decide; by repeat split. }
  split.
  { intros column columns. unfold row_icon.
    rewrite has_columns_array, toggle_flips.
    cbn [mbind completion_bind mret completion_ret].
    by destruct (bool_decide (name ∈ S)). }
  split.
  { intros other columns Hne. unfold row_icon, column_list.
    by rewrite (toggle_other S name other Hne). }
  intros columns Hout. unfold column_list.
  by rewrite (bool_decide_eq_false_2 _ Hout).
Qed.

Lemma row_expansion_witness :
  row_icon {| apiUrl := "http://localhost:8000"; coerced_gt0 := fun _ => false |}
           (toggle "orders" ∅) "users" (JArr [JObj [("name", JStr "id")]])
  = Normal ChevronRight
  /\ column_list {| apiUrl := "http://localhost:8000";
                    coerced_gt0 := fun _ => false |}
                 ∅ "users" (JStr "not an array")
     = Normal None
  /\ row_icon {| apiUrl := "http://localhost:8000";
                 coerced_gt0 := fun _ => false |}
              ∅ "users" JUndefined
     = Normal DatabaseIcon.
Proof.
  destruct (row_expansion
              {| apiUrl := "http://localhost:8000";
                 coerced_gt0 := fun _ => false |} ∅ "users")
    as (Hnone & _ & Hother & Hcollapsed).
  split.
  - destruct (Hother "orders" (JArr [JObj [("name", JStr "id")]])
                     ltac:(discriminate)) as [-> _].
    reflexivity.
  - split.
    + apply Hcollapsed. apply not_elem_of_empty.
    + apply (Hnone JUndefined). by left.
Defined.

(** X17. The column list of an expanded table whose [columns] is a
    non-empty array of objects has one line per column, in order; a line
    carries the NOT NULL badge exactly when [nullable] is the boolean
    [false] (an absent [nullable] gives no badge) and the PK badge exactly
    when [primary_key] is truthy (absent gives none).  An expanded table
    whose [columns] is a non-empty string makes the render throw. *)
Theorem column_list_rows :
  forall env S name,
    name ∈ S ->
    (forall fields columns,
        exists rows,
          column_list env S name (JArr (map JObj (fields :: columns)))
          = Normal (Some rows)
          /\ length rows = length (fields :: columns)
          /\ (forall i col,
                (fields :: columns) !! i = Some col ->
                exists row,
                  rows !! i = Some row
                  /\ col_name row = obj_get "name" col
                  /\ col_type row = obj_get "type" col
                  /\ (not_null_badge row = true
                      <-> obj_get "nullable" col = JBool false)
                  /\ pk_badge row = truthy (obj_get "primary_key" col)))
    /\ column_row (JObj [("name", JStr "id"); ("type", JStr "INTEGER")])
       = Normal {| col_name := JStr "id"; col_type := JStr "INTEGER";
                   not_null_badge := false; pk_badge := false |}
    /\ (forall a text,
          column_list env S name (JStr (String a text)) = Throw TypeError).
Proof.
  intros env S name Hin. split.
  { intros fields columns. eexists. split.
    - unfold column_list. rewrite (bool_decide_eq_true_2 _ Hin).
      rewrite has_columns_array.
      cbn [map mbind completion_bind as_array].
      change (JObj fields :: map JObj columns)
        with (map JObj (fields :: columns)).
      rewrite map_rows_objects. reflexivity.
    - split; [by rewrite length_map|].
      intros i col Hcol. eexists. split.
      + rewrite list_lookup_fmap, Hcol. reflexivity.
      + cbn [col_name col_type not_null_badge pk_badge].
        repeat split; try done.
        * destruct (obj_get "nullable" col) as [| |[]| | | |];
            cbn; congruence.
        * by intros ->. }
  split; [reflexivity|].
  intros a text. unfold column_list.
  by rewrite (bool_decide_eq_true_2 _ Hin).
Qed.

Lemma column_list_rows_witness :
  column_list {| apiUrl := "http://localhost:8000";
                 coerced_gt0 := fun _ => false |}
              {["users"]} "users" (JStr "id,name")
  = Throw TypeError.
Proof.
  destruct (column_list_rows
              {| apiUrl := "http://localhost:8000";
                 coerced_gt0 := fun _ => false |}
              {["users"]} "users" ltac:(by apply elem_of_singleton))
    as (_ & _ & Hthrow).
  exact (Hthrow "i"%char "d,name").
Defined.

(** ** Version widget *)

Section VersionFacts.

(** The state after the version fetch, by response. *)
Lemma fetchVersionInfo_final (penv : ProcessEnv) (now : string)
    (response : JsonFetch) :
  vreplay vinitial (fetchVersionInfo penv now response)
  = {| versionData :=
         match response with
         | Body data =>
             match get data "backend" with
             | Normal b =>
                 Some {| backend := b;
                         frontend_version := "1.0.0";
                         frontend_last_updated := frontendBuildTime penv now |}
             | Throw _ => None
             end
         | _ => None
         end;
       vloading := false |}.
Proof.
  destruct response as [e|e|data]; try reflexivity.
  unfold fetchVersionInfo. destruct (get data "backend"); reflexivity.
Qed.

End VersionFacts.



(** X19. A parsed body that is not [null] but has no [backend] object
    (the field is missing or [null], or the body is a number, a string, a
    boolean or an array) passes the guard of the widget: version data is
    stored with that [backend], [loading] is cleared, and evaluating the
    tooltip throws, so the widget crashes instead of showing. *)
Theorem version_body_without_backend :
  forall penv now to_locale,
    (forall fields,
        obj_get "backend" fields = JUndefined
        \/ obj_get "backend" fields = JNull ->
        let final :=
          vreplay vinitial (fetchVersionInfo penv now (Body (JObj fields))) in
        vloading final = false
        /\ (exists data,
              versionData final = Some data
              /\ backend data = obj_get "backend" fields
              /\ backend_fields data = Throw TypeError)
        /\ render_version to_locale final = Crashed)
    /\ (forall body,
          match body with
          | JBool _ | JNum _ | JStr _ | JArr _ => True
          | _ => False
          end ->
          render_version to_locale
            (vreplay vinitial (fetchVersionInfo penv now (Body body)))
          = Crashed).
Proof.
  intros penv now to_locale. split.
  - intros fields Hb final. unfold final. rewrite fetchVersionInfo_final.
    cbn [get]. split; [reflexivity|].
    split.
    + eexists. split; [reflexivity|]. split; [reflexivity|].
      unfold backend_fields. cbn [backend].
      destruct Hb as [-> | ->]; reflexivity.
    + unfold render_version, backend_fields.
      cbn [vloading versionData backend].
      destruct Hb as [-> | ->]; reflexivity.
  - intros body Hbody. rewrite fetchVersionInfo_final.
    destruct body; try contradiction; reflexivity.
Qed.

Lemma version_body_without_backend_witness :
  render_version (fun _ => Normal "1 Mei 2024, 10.00")
    (vreplay vinitial
       (fetchVersionInfo
          {| NEXT_PUBLIC_API_URL := Some "http://localhost:8000";
             NEXT_PUBLIC_BUILD_TIME := Some "2024-05-01T10:00:00.000Z" |}
          "2024-06-01T00:00:00.000Z"
          (Body (JObj [("detail", JStr "Not Found")]))))
  = Crashed.
Proof.
  destruct (version_body_without_backend
              {| NEXT_PUBLIC_API_URL := Some "http://localhost:8000";
                 NEXT_PUBLIC_BUILD_TIME := Some "2024-05-01T10:00:00.000Z" |}
              "2024-06-01T00:00:00.000Z"
              (fun _ => Normal "1 Mei 2024, 10.00")) as [Hmissing _].
  destruct (Hmissing [("detail", JStr "Not Found")] ltac:(by left))
    as (_ & _ & Hcrash).
  exact Hcrash.
Defined.

(** ** More on titles *)

(** X20. A title never contains an underscore or a hyphen, and it is as
    long as the first file name or four characters shorter. *)
Theorem title_shape :
  forall c,
    (forall a,
        In a (list_ascii_of_string (getCollectionTitle c)) ->
        a <> "_"%char /\ a <> "-"%char)
    /\ (forall first rest,
          file_names c = Some (first :: rest) ->
          String.length (getCollectionTitle c) = String.length first
          \/ String.length (getCollectionTitle c) + 4 = String.length first).
Proof.
  intros c. split.
  - intros a. rewrite getCollectionTitle_title_spec. unfold title_spec.
    destruct (file_names c) as [[|first rest]|].
    + cbn. intros Hin. split; intros ->;
        repeat (destruct Hin as [Hin|Hin]; [discriminate|]); done.
    + apply map_chars_no_separator.
    + cbn. intros Hin. split; intros ->;
        repeat (destruct Hin as [Hin|Hin]; [discriminate|]); done.
  - intros first rest Hnames.
    rewrite getCollectionTitle_title_spec. unfold title_spec. rewrite Hnames.
    rewrite map_chars_length. apply strip_pdf_suffix_length.
Qed.

Lemma title_shape_witness :
  String.length
    (getCollectionTitle {| collection_id := "c1";
                           file_names := Some ["Q1_report.pdf"];
                           document_count := 1%N; created_at := "" |})
  = String.length "Q1_report.pdf"
  \/ String.length
       (getCollectionTitle {| collection_id := "c1";
                              file_names := Some ["Q1_report.pdf"];
                              document_count := 1%N; created_at := "" |})
     + 4 = String.length "Q1_report.pdf".
Proof.
  destruct (title_shape {| collection_id := "c1";
                           file_names := Some ["Q1_report.pdf"];
                           document_count := 1%N; created_at := "" |})
    as [_ Hlen].
  exact (Hlen "Q1_report.pdf" [] eq_refl).
Defined.

(** X21. For a first file name made of a stem and a [.pdf] extension in
    any letter case, the title is the stem with its separators turned into
    spaces: one extension is removed, also when the stem itself ends in
    [.pdf].  A name that does not end in such an extension keeps all its
    characters but the separators. *)
Theorem title_of_pdf_name :
  forall id rest n t,
    (forall stem ext,
        is_dot_pdf ext = true ->
        getCollectionTitle {| collection_id := id;
                              file_names := Some ((stem +:+ ext) :: rest);
                              document_count := n; created_at := t |}
        = map_chars separator_to_space stem)
    /\ (forall name,
          (forall stem ext, name = stem +:+ ext -> is_dot_pdf ext = false) ->
          getCollectionTitle {| collection_id := id;
                                file_names := Some (name :: rest);
                                document_count := n; created_at := t |}
          = map_chars separator_to_space name).
Proof.
  intros id rest n t. split.
  - intros stem ext Hext. rewrite getCollectionTitle_title_spec.
    unfold title_spec; cbn [file_names].
    by rewrite strip_pdf_suffix_app.
  - intros name Hno. rewrite getCollectionTitle_title_spec.
    unfold title_spec; cbn [file_names]. f_equal.
    unfold strip_pdf_suffix.
    destruct (4 <=? String.length name)%nat eqn:Hlen; [|reflexivity].
    apply Nat.leb_le in Hlen.
    rewrite (Hno (substring 0 (String.length name - 4) name)
                 (substring (String.length name - 4) 4 name));
      [reflexivity|].
    pose proof (substring_split (String.length name - 4) name) as Hsplit.
    replace (String.length name - (String.length name - 4)) with 4
      in Hsplit by lia.
    apply Hsplit. lia.
Qed.

Lemma title_of_pdf_name_witness :
  getCollectionTitle {| collection_id := "c1";
                        file_names := Some ["my-notes.pdf.PDF"];
                        document_count := 1%N; created_at := "" |}
  = "my notes.pdf".
Proof.
  destruct (title_of_pdf_name "c1" [] 1%N "") as [Hstem _].
  exact (Hstem "my-notes.pdf" ".PDF" eq_refl).
Defined.
